(** * RepVGG data pipeline: [data/build.py]

    A shallow embedding of the dataset and loader construction code of
    [data/build.py]: the YOLO-format [CustomDataset], [build_dataset],
    [build_transform] and the sampler selection of [build_loader].

    Python objects are modelled as follows.
    - [str] is [string]; a character is a code point below 256.
    - [int] is [Z]; [float] is an IEEE-754 binary64 value, [spec_float]
      with the operations of [SpecFloat] at precision 53, emax 1024.
    - A raised exception is the [Raise] case of [result]; sequencing of
      statements is [bind], so the first exception raised is the outcome.
    - The file system, the image decoder and the process group are read
      through a [world] record; nothing in this file writes to them.
    - Objects of torchvision, timm and PIL are kept as descriptions
      (constructor name and arguments); logging and printing are left out. *)

From Stdlib Require Import ZArith List Bool Ascii String Lia.
From Stdlib Require Import Floats.SpecFloat.
Import ListNotations.

Open Scope string_scope.
Open Scope Z_scope.

(** ** Exceptions and the error monad *)

Inductive exn : Type :=
| OSError
| IndexError
| ValueError
| OverflowError
| ZeroDivisionError
| NotImplementedError.

Inductive result (A : Type) : Type :=
| Ok (a : A)
| Raise (e : exn).

Arguments Ok {A} a.
Arguments Raise {A} e.

Definition bind {A B : Type} (m : result A) (k : A -> result B) : result B :=
  match m with
  | Ok a => k a
  | Raise e => Raise e
  end.

Notation "x <- m ;; k" := (bind m (fun x => k))
  (at level 61, m at next level, right associativity).
Notation "' p <- m ;; k" := (bind m (fun x => match x with p => k end))
  (at level 61, p pattern, m at next level, right associativity).

Definition raises {A : Type} (m : result A) : Prop :=
  exists e, m = Raise e.

Definition of_option {A : Type} (e : exn) (o : option A) : result A :=
  match o with
  | Some a => Ok a
  | None => Raise e
  end.

(** ** Python list indexing *)

(** [l[i]]: a negative index counts from the end, an index out of range
    raises [IndexError]. *)
Definition getitem_list {A : Type} (l : list A) (i : Z) : result A :=
  let n := Z.of_nat (List.length l) in
  if (0 <=? i) && (i <? n) then of_option IndexError (nth_error l (Z.to_nat i))
  else if (- n <=? i) && (i <? 0) then
    of_option IndexError (nth_error l (Z.to_nat (n + i)))
  else Raise IndexError.

(** ** Strings *)

Module Str.

(** [str.isspace] on a single code point below 256. *)
Definition isspace (c : ascii) : bool :=
  let n := nat_of_ascii c in
  ((9 <=? n) && (n <=? 13) || (28 <=? n) && (n <=? 31)
   || (n =? 32) || (n =? 133) || (n =? 160))%nat.

Definition is_empty (s : string) : bool :=
  match s with
  | EmptyString => true
  | String _ _ => false
  end.

(** [s.endswith(suf)]: some tail of [s] is [suf]. *)
Fixpoint endswith (s suf : string) : bool :=
  if String.eqb s suf then true
  else match s with
       | EmptyString => false
       | String _ s' => endswith s' suf
       end.

Definition startswith (s pre : string) : bool := String.prefix pre s.

Fixpoint lstrip (s : string) : string :=
  match s with
  | EmptyString => EmptyString
  | String c s' => if isspace c then lstrip s' else s
  end.

Fixpoint rstrip (s : string) : string :=
  match s with
  | EmptyString => EmptyString
  | String c s' =>
      let r := rstrip s' in
      if isspace c && is_empty r then EmptyString else String c r
  end.

(** [s.strip()] *)
Definition strip (s : string) : string := rstrip (lstrip s).

(** [s.split()] with no separator: the maximal runs of characters that
    are not whitespace, in order.  [cur] is the run being read. *)
Fixpoint split_from (cur : string) (s : string) : list string :=
  match s with
  | EmptyString => if is_empty cur then [] else [cur]
  | String c s' =>
      if isspace c then
        if is_empty cur then split_from EmptyString s'
        else cur :: split_from EmptyString s'
      else split_from (cur ++ String c EmptyString) s'
  end.

Definition split (s : string) : list string := split_from EmptyString s.

(** [s.rfind(c)] for a single character, [-1] when absent. *)
Fixpoint rfind_from (i : Z) (s : string) (c : ascii) : Z :=
  match s with
  | EmptyString => -1
  | String d s' =>
      let r := rfind_from (i + 1) s' c in
      if 0 <=? r then r else if Ascii.eqb d c then i else -1
  end.

Definition rfind (s : string) (c : ascii) : Z := rfind_from 0 s c.

(** [s[i:j]] for [0 <= i <= j]. *)
Definition slice (s : string) (i j : Z) : string :=
  String.substring (Z.to_nat i) (Z.to_nat (j - i)) s.

Definition len (s : string) : Z := Z.of_nat (String.length s).

End Str.

(** ** [os.path] (POSIX) *)

Module Path.

(** [os.path.join(a, b)] *)
Definition join (a b : string) : string :=
  if Str.startswith b "/" then b
  else if Str.is_empty a || Str.endswith a "/" then a ++ b
  else a ++ "/" ++ b.

(** The scan of [genericpath._splitext] over the leading dots of the
    last component: [true] when a character other than a dot occurs
    at an index in [filenameIndex, filenameIndex + k). *)
Fixpoint has_non_dot (p : string) (filenameIndex : Z) (k : nat) : bool :=
  match k with
  | O => false
  | S k' =>
      match String.get (Z.to_nat filenameIndex) p with
      | Some c =>
          if Ascii.eqb c "." then has_non_dot p (filenameIndex + 1) k'
          else true
      | None => true
      end
  end.

(** [os.path.splitext(p)] *)
Definition splitext (p : string) : string * string :=
  let sepIndex := Str.rfind p "/" in
  let dotIndex := Str.rfind p "." in
  if (sepIndex <? dotIndex)
     && has_non_dot p (sepIndex + 1) (Z.to_nat (dotIndex - (sepIndex + 1)))
  then (Str.slice p 0 dotIndex, Str.slice p dotIndex (Str.len p))
  else (p, EmptyString).

End Path.

(** ** Python [float] and [int] conversions *)

Module Float.

Definition prec : Z := 53.
Definition emax : Z := 1024.

Definition float : Type := spec_float.

Definition mul (x y : float) : float := SFmul prec emax x y.
Definition add (x y : float) : float := SFadd prec emax x y.
Definition sub (x y : float) : float := SFsub prec emax x y.
Definition ltb (x y : float) : bool := SFltb x y.

Definition is_zero (x : float) : bool :=
  match x with
  | S754_zero _ => true
  | _ => false
  end.

(** [x / y] on floats: a zero divisor raises. *)
Definition div (x y : float) : result float :=
  if is_zero y then Raise ZeroDivisionError else Ok (SFdiv prec emax x y).

(** [float(n)] for an [int]: the nearest binary64 value, ties to even;
    an integer beyond the finite range raises [OverflowError]. *)
Definition of_int (n : Z) : result float :=
  match binary_normalize prec emax n 0 false with
  | S754_infinity _ => Raise OverflowError
  | f => Ok f
  end.

(** [int(x)] for a [float]: truncation toward zero; [nan] raises
    [ValueError] and an infinity raises [OverflowError]. *)
Definition to_int (x : float) : result Z :=
  match x with
  | S754_zero _ => Ok 0
  | S754_infinity _ => Raise OverflowError
  | S754_nan => Raise ValueError
  | S754_finite s m e =>
      let a := Z.shiftl (Zpos m) e in
      Ok (if s then - a else a)
  end.

(** [x * n] and [x / n] with a [float] on the left and an [int] on
    the right: the integer is converted first. *)
Definition mul_int (x : float) (n : Z) : result float :=
  y <- of_int n ;; Ok (mul x y).

Definition div_int (x : float) (n : Z) : result float :=
  y <- of_int n ;; div x y.

(** [m / n] on two [int]s (true division), for operands that are
    exactly representable. *)
Definition int_truediv (m n : Z) : result float :=
  x <- of_int m ;; y <- of_int n ;; div x y.

(** *** [float(s)] for a [str] *)

Definition is_digit (c : ascii) : bool :=
  let n := nat_of_ascii c in ((48 <=? n) && (n <=? 57))%nat.

Definition digit_value (c : ascii) : Z := Z.of_nat (nat_of_ascii c) - 48.

(** The whitespace of the C locale, which is what [float] strips. *)
Definition c_isspace (c : ascii) : bool :=
  let n := nat_of_ascii c in (((9 <=? n) && (n <=? 13)) || (n =? 32))%nat.

(** Code points 0x85 and 0xA0 are turned into a blank before parsing. *)
Definition space_to_ascii (c : ascii) : ascii :=
  let n := nat_of_ascii c in
  if ((n =? 133) || (n =? 160))%nat then " "%char else c.

Fixpoint map_string (f : ascii -> ascii) (s : string) : string :=
  match s with
  | EmptyString => EmptyString
  | String c s' => String (f c) (map_string f s')
  end.

(** Underscores may only stand between two digits; they are removed.
    [prev] is the previous character, if any. *)
Fixpoint drop_underscores (prev : option ascii) (s : string)
  : option string :=
  match s with
  | EmptyString =>
      match prev with
      | Some "_"%char => None
      | _ => Some EmptyString
      end
  | String c s' =>
      if Ascii.eqb c "_" then
        match prev with
        | Some p =>
            if is_digit p then drop_underscores (Some c) s' else None
        | None => None
        end
      else
        let bad :=
          match prev with
          | Some "_"%char => negb (is_digit c)
          | _ => false
          end in
        if bad then None
        else match drop_underscores (Some c) s' with
             | Some r => Some (String c r)
             | None => None
             end
  end.

Fixpoint c_lstrip (s : string) : string :=
  match s with
  | EmptyString => EmptyString
  | String c s' => if c_isspace c then c_lstrip s' else s
  end.

Fixpoint c_rstrip (s : string) : string :=
  match s with
  | EmptyString => EmptyString
  | String c s' =>
      let r := c_rstrip s' in
      if c_isspace c && Str.is_empty r then EmptyString else String c r
  end.

Definition parse_sign (s : string) : bool * string :=
  match s with
  | String "-" r => (true, r)
  | String "+" r => (false, r)
  | _ => (false, s)
  end.

(** The longest prefix of digits, and the rest. *)
Fixpoint take_digits (s : string) : string * string :=
  match s with
  | EmptyString => (EmptyString, EmptyString)
  | String c s' =>
      if is_digit c then
        let '(d, r) := take_digits s' in (String c d, r)
      else (EmptyString, s)
  end.

Fixpoint digits_value (acc : Z) (s : string) : Z :=
  match s with
  | EmptyString => acc
  | String c s' => digits_value (10 * acc + digit_value c) s'
  end.

(** A decimal literal: sign, digits with an optional point, optional
    exponent.  The result is [(negative, M, E)] for the value
    [M * 10^E]. *)
Definition parse_decimal (s : string) : option (bool * Z * Z) :=
  let '(neg, s1) := parse_sign s in
  let '(ip, s2) := take_digits s1 in
  let '(fp, s3) :=
    match s2 with
    | String "." r => take_digits r
    | _ => (EmptyString, s2)
    end in
  if Str.is_empty ip && Str.is_empty fp then None
  else
    let M := digits_value 0 (ip ++ fp) in
    let nfrac := Str.len fp in
    match s3 with
    | EmptyString => Some (neg, M, - nfrac)
    | String c r =>
        if Ascii.eqb c "e" || Ascii.eqb c "E" then
          let '(eneg, r1) := parse_sign r in
          let '(ed, r2) := take_digits r1 in
          if Str.is_empty ed || negb (Str.is_empty r2) then None
          else
            let e := digits_value 0 ed in
            Some (neg, M, (if eneg then - e else e) - nfrac)
        else None
    end.

Definition lower (c : ascii) : ascii :=
  let n := nat_of_ascii c in
  if ((65 <=? n) && (n <=? 90))%nat then ascii_of_nat (n + 32) else c.

(** [inf], [infinity] and [nan], with a sign, in any letter case. *)
Definition parse_inf_or_nan (s : string) : option float :=
  let '(neg, r) := parse_sign s in
  let r := map_string lower r in
  if String.eqb r "inf" || String.eqb r "infinity"
  then Some (S754_infinity neg)
  else if String.eqb r "nan" then Some S754_nan
  else None.

(** The binary64 value nearest to [M * 10^E], ties to even. *)
Definition round_decimal (neg : bool) (M E : Z) : float :=
  match M with
  | Z0 => S754_zero neg
  | Zpos m =>
      if 0 <=? E then binary_round prec emax neg (Z.to_pos (M * 10 ^ E)) 0
      else
        let '(q, e, l) :=
          SFdiv_core_binary prec emax M 0 (10 ^ (- E)) 0 in
        binary_round_aux prec emax neg q e l
  | Zneg _ => S754_nan
  end.

(** [float(s)] *)
Definition of_string (s : string) : result float :=
  match drop_underscores None (map_string space_to_ascii s) with
  | None => Raise ValueError
  | Some s1 =>
      let s2 := c_rstrip (c_lstrip s1) in
      match parse_decimal s2 with
      | Some (neg, M, E) => Ok (round_decimal neg M E)
      | None => of_option ValueError (parse_inf_or_nan s2)
      end
  end.

End Float.

Definition float : Type := Float.float.

(** ** Transform pipelines (torchvision, timm) as descriptions *)

Inductive stats : Type :=
| IMAGENET_DEFAULT_MEAN
| IMAGENET_DEFAULT_STD
| Stats (literal : list string).

(** The arguments [build_transform] passes to timm's [create_transform]. *)
Record create_args : Type := {
  input_size : Z;
  is_training : bool;
  color_jitter : option float;
  auto_augment : option string;
  re_prob : float;
  re_mode : string;
  re_count : Z;
  interpolation : string
}.

Inductive transform_op : Type :=
| Resize (size : Z) (interp : option string)
| CenterCrop (size : Z)
| ToTensor
| Normalize (mean std : stats)
| RandomCrop (size padding : Z)
| RandomHorizontalFlip
| RandomResizedCrop (size : Z)
| RandAugPolicy (magnitude : Z).

(** [Compose ops] is [transforms.Compose(ops)]; [CreateTransform a first]
    is the pipeline [create_transform] returns on the arguments [a], with its element
    0 replaced by [op] when [first = Some op]. *)
Inductive transform : Type :=
| Compose (ops : list transform_op)
| CreateTransform (args : create_args) (first : option transform_op).

(** ** Configuration *)

Record DATA_node : Type := {
  DATASET : string;
  DATA_PATH : string;
  IMG_SIZE : Z;
  TEST_SIZE : Z;
  INTERPOLATION : string;
  ZIP_MODE : bool;
  CACHE_MODE : string;
  BATCH_SIZE : Z;
  TEST_BATCH_SIZE : Z;
  NUM_WORKERS : Z;
  PIN_MEMORY : bool
}.

Record AUG_node : Type := {
  PRESET : option string;
  COLOR_JITTER : float;
  AUTO_AUGMENT : string;
  REPROB : float;
  REMODE : string;
  RECOUNT : Z;
  MIXUP : float;
  CUTMIX : float;
  CUTMIX_MINMAX : option (list float);
  MIXUP_PROB : float;
  MIXUP_SWITCH_PROB : float;
  MIXUP_MODE : string
}.

Record TEST_node : Type := { CROP : bool }.

Record MODEL_node : Type := {
  ARCH : string;
  NUM_CLASSES : Z;
  LABEL_SMOOTHING : float
}.

Record config : Type := {
  DATA : DATA_node;
  AUG : AUG_node;
  TEST : TEST_node;
  MODEL : MODEL_node;
  OUTPUT : string;
  LOCAL_RANK : Z
}.

Definition set_PRESET (cfg : config) (p : option string) : config :=
  let a := AUG cfg in
  {| DATA := DATA cfg;
     AUG := {| PRESET := p;
               COLOR_JITTER := COLOR_JITTER a;
               AUTO_AUGMENT := AUTO_AUGMENT a;
               REPROB := REPROB a;
               REMODE := REMODE a;
               RECOUNT := RECOUNT a;
               MIXUP := MIXUP a;
               CUTMIX := CUTMIX a;
               CUTMIX_MINMAX := CUTMIX_MINMAX a;
               MIXUP_PROB := MIXUP_PROB a;
               MIXUP_SWITCH_PROB := MIXUP_SWITCH_PROB a;
               MIXUP_MODE := MIXUP_MODE a |};
     TEST := TEST cfg;
     MODEL := MODEL cfg;
     OUTPUT := OUTPUT cfg;
     LOCAL_RANK := LOCAL_RANK cfg |}.

(** [config.MODEL.NUM_CLASSES = n] between [defrost] and [freeze]. *)
Definition set_NUM_CLASSES (cfg : config) (n : Z) : config :=
  {| DATA := DATA cfg;
     AUG := AUG cfg;
     TEST := TEST cfg;
     MODEL := {| ARCH := ARCH (MODEL cfg);
                 NUM_CLASSES := n;
                 LABEL_SMOOTHING := LABEL_SMOOTHING (MODEL cfg) |};
     OUTPUT := OUTPUT cfg;
     LOCAL_RANK := LOCAL_RANK cfg |}.

(** ** The outside world *)

(** What the code reads from its environment.  [None] stands for the
    [OSError] the corresponding call raises.
    - [listdir p]: the entries [os.listdir(p)] returns, in its order;
    - [image_size p]: the [(width, height)] of
      [Image.open(p).convert('RGB')];
    - [file_text p]: the decoded text of the file opened by [open(p, 'r')],
      for a file whose read decodes; the bytes of a file, and the read
      that fails on them, are in [Disk] below;
    - [external_len root part]: the length of a torchvision or cached
      dataset built on [root] for the split or annotation file [part];
    - [get_rank], [get_world_size]: the process group of
      [torch.distributed]. *)
Record world : Type := {
  listdir : string -> option (list string);
  image_size : string -> option (Z * Z);
  file_text : string -> option string;
  external_len : string -> string -> Z;
  get_rank : Z;
  get_world_size : Z
}.

(** [f.readline()] on a file opened in text mode at its start, on the
    text the file decodes to: the text up to and including the first line
    end, where [\n], [\r] and [\r\n] all end a line and are read as
    [\n]. *)
Fixpoint readline (text : string) : string :=
  match text with
  | EmptyString => EmptyString
  | String c rest =>
      if Ascii.eqb c "010" || Ascii.eqb c "013"
      then String "010" EmptyString
      else String c (readline rest)
  end.

(** ** [CustomDataset] *)

(** What [__getitem__] hands out as the image: the crop of the file at
    [src] to [box = (x1, y1, x2, y2)], possibly passed through a
    transform. *)
Inductive picture : Type :=
| Cropped (src : string) (box : Z * Z * Z * Z)
| Transformed (t : transform) (p : picture).

Module CustomDataset.

Record t : Type := {
  image_dir : string;
  label_dir : string;
  transform_ : option transform;
  image_filenames : list string
}.

(** The filter of the list comprehension in [__init__]. *)
Definition is_image_name (f : string) : bool :=
  Str.endswith f ".jpg" || Str.endswith f ".png".

Definition __init__ (w : world) (image_dir label_dir : string)
    (transform : option transform) : result t :=
  entries <- of_option OSError (listdir w image_dir) ;;
  Ok {| image_dir := image_dir;
        label_dir := label_dir;
        transform_ := transform;
        image_filenames := filter is_image_name entries |}.

Definition __len__ (self : t) : Z :=
  Z.of_nat (List.length (image_filenames self)).

(** [class_id, cx, cy, bw, bh = map(float, line.split())]: every
    failure of this statement, a field [float] rejects or a number of
    fields other than five, is a [ValueError]. *)
Definition parse_label (line : string)
  : result (float * float * float * float * float) :=
  match Str.split line with
  | [f0; f1; f2; f3; f4] =>
      class_id <- Float.of_string f0 ;;
      cx <- Float.of_string f1 ;;
      cy <- Float.of_string f2 ;;
      bw <- Float.of_string f3 ;;
      bh <- Float.of_string f4 ;;
      Ok (class_id, cx, cy, bw, bh)
  | _ => Raise ValueError
  end.

(** The conversion of the normalized box to pixel coordinates. *)
Definition pixel_box (cx cy bw bh : float) (width height : Z)
  : result (Z * Z * Z * Z) :=
  cx <- Float.mul_int cx width ;;
  cy <- Float.mul_int cy height ;;
  bw <- Float.mul_int bw width ;;
  bh <- Float.mul_int bh height ;;
  hw <- Float.div_int bw 2 ;;
  x1 <- Float.to_int (Float.sub cx hw) ;;
  hh <- Float.div_int bh 2 ;;
  y1 <- Float.to_int (Float.sub cy hh) ;;
  hw <- Float.div_int bw 2 ;;
  x2 <- Float.to_int (Float.add cx hw) ;;
  hh <- Float.div_int bh 2 ;;
  y2 <- Float.to_int (Float.add cy hh) ;;
  Ok (x1, y1, x2, y2).

Definition __getitem__ (w : world) (self : t) (idx : Z)
  : result (picture * Z) :=
  image_filename <- getitem_list (image_filenames self) idx ;;
  let image_path := Path.join (image_dir self) image_filename in
  let label_path :=
    Path.join (label_dir self)
              (fst (Path.splitext image_filename) ++ ".txt") in
  '(width, height) <- of_option OSError (image_size w image_path) ;;
  text <- of_option OSError (file_text w label_path) ;;
  let line := Str.strip (readline text) in
  '(class_id, cx, cy, bw, bh) <- parse_label line ;;
  class_id <- Float.to_int class_id ;;
  box <- pixel_box cx cy bw bh width height ;;
  let img := Cropped image_path box in
  let img :=
    match transform_ self with
    | Some tr => Transformed tr img
    | None => img
    end in
  Ok (img, class_id).

End CustomDataset.

(** ** Datasets, samplers and loaders *)

(** The torchvision and cached datasets are kept as the call that builds
    them; that such a call may itself fail is outside this file. *)
Inductive dataset : Type :=
| CachedImageFolder (root ann_file prefix : string) (tr : transform)
    (cache_mode : string)
| ImageNet (root split : string) (tr : transform)
| CIFAR100 (root : string) (train download : bool) (tr : transform)
| Custom (d : CustomDataset.t).

(** [len(dataset)] *)
Definition len (w : world) (d : dataset) : Z :=
  match d with
  | CachedImageFolder root ann_file _ _ _ => external_len w root ann_file
  | ImageNet root split _ => external_len w root split
  | CIFAR100 root train _ _ =>
      external_len w root (if train then "train" else "test")
  | Custom d => CustomDataset.__len__ d
  end.

(** ** [build_transform] *)

Definition imagenet_normalize : transform_op :=
  Normalize IMAGENET_DEFAULT_MEAN IMAGENET_DEFAULT_STD.

Definition build_transform (is_train : bool) (config : config)
  : result transform :=
  let resize_im := 32 <? IMG_SIZE (DATA config) in
  if is_train then
    match PRESET (AUG config) with
    | None =>
        let args :=
          {| input_size := IMG_SIZE (DATA config);
             is_training := true;
             color_jitter :=
               if Float.ltb (S754_zero false) (COLOR_JITTER (AUG config))
               then Some (COLOR_JITTER (AUG config)) else None;
             auto_augment :=
               if String.eqb (AUTO_AUGMENT (AUG config)) "none"
               then None else Some (AUTO_AUGMENT (AUG config));
             re_prob := REPROB (AUG config);
             re_mode := REMODE (AUG config);
             re_count := RECOUNT (AUG config);
             interpolation := INTERPOLATION (DATA config) |} in
        if negb resize_im
        then Ok (CreateTransform args
                   (Some (RandomCrop (IMG_SIZE (DATA config)) 4)))
        else Ok (CreateTransform args None)
    | Some preset =>
        if String.eqb (Str.strip preset) "raug15" then
          Ok (Compose [RandomResizedCrop (IMG_SIZE (DATA config));
                       RandomHorizontalFlip;
                       RandAugPolicy 15;
                       ToTensor;
                       imagenet_normalize])
        else if String.eqb (Str.strip preset) "weak" then
          Ok (Compose [RandomResizedCrop (IMG_SIZE (DATA config));
                       RandomHorizontalFlip;
                       ToTensor;
                       imagenet_normalize])
        else if String.eqb (Str.strip preset) "none" then
          Ok (Compose [Resize (IMG_SIZE (DATA config))
                              (Some (INTERPOLATION (DATA config)));
                       CenterCrop (IMG_SIZE (DATA config));
                       ToTensor;
                       imagenet_normalize])
        else Raise ValueError
    end
  else
    t <- (if resize_im then
            if CROP (TEST config) then
              ratio <- Float.int_truediv 256 224 ;;
              scaled <- Float.mul_int ratio (TEST_SIZE (DATA config)) ;;
              size <- Float.to_int scaled ;;
              Ok [Resize size (Some (INTERPOLATION (DATA config)));
                  CenterCrop (TEST_SIZE (DATA config))]
            else
              Ok [Resize (TEST_SIZE (DATA config))
                         (Some (INTERPOLATION (DATA config)));
                  CenterCrop (TEST_SIZE (DATA config))]
          else Ok []) ;;
    Ok (Compose (t ++ [ToTensor; imagenet_normalize])).

(** ** [build_dataset] *)

(** The loop over [os.listdir(path)] that fills [dir_list]: the joined
    path of every entry named [images] or [labels], in listing order. *)
Fixpoint scan_dirs (path : string) (entries : list string) : list string :=
  match entries with
  | [] => []
  | dir :: rest =>
      (if String.eqb dir "images" then [Path.join path dir] else [])
        ++ (if String.eqb dir "labels" then [Path.join path dir] else [])
        ++ scan_dirs path rest
  end.

(** The body shared by the [is_train] and the validation branch of the
    ['custom'] case, which differ in the name of the split only. *)
Definition custom_split (w : world) (data_path split : string)
    (tr : transform) : result dataset :=
  let path := Path.join data_path split in
  entries <- of_option OSError (listdir w path) ;;
  let dir_list := scan_dirs path entries in
  image_dir <- getitem_list dir_list 1 ;;
  label_dir <- getitem_list dir_list 0 ;;
  d <- CustomDataset.__init__ w image_dir label_dir (Some tr) ;;
  Ok (Custom d).

Definition cf100_mean : stats :=
  Stats ["0.5070751592371323"; "0.48654887331495095"; "0.4409178433670343"].
Definition cf100_std : stats :=
  Stats ["0.2673342858792401"; "0.2564384629170883"; "0.27615047132568404"].
Definition custom_mean : stats := Stats ["0.5441"; "0.4334"; "0.3817"].
Definition custom_std : stats := Stats ["0.2558"; "0.2304"; "0.2223"].

Definition build_dataset (w : world) (is_train : bool) (config : config)
  : result (dataset * Z) :=
  if String.eqb (DATASET (DATA config)) "imagenet" then
    tr <- build_transform is_train config ;;
    let prefix := if is_train then "train" else "val" in
    let dataset :=
      if ZIP_MODE (DATA config) then
        let ann_file := prefix ++ "_map.txt" in
        let prefix := prefix ++ ".zip@/" in
        CachedImageFolder (DATA_PATH (DATA config)) ann_file prefix tr
          (if is_train then CACHE_MODE (DATA config) else "part")
      else
        ImageNet (DATA_PATH (DATA config))
          (if is_train then "train" else "val") tr in
    Ok (dataset, 1000)
  else if String.eqb (DATASET (DATA config)) "cf100" then
    let dataset :=
      if is_train then
        CIFAR100 (DATA_PATH (DATA config)) true true
          (Compose [RandomCrop 32 4; RandomHorizontalFlip; ToTensor;
                    Normalize cf100_mean cf100_std])
      else
        CIFAR100 (DATA_PATH (DATA config)) false true
          (Compose [ToTensor; Normalize cf100_mean cf100_std]) in
    Ok (dataset, 100)
  else if String.eqb (DATASET (DATA config)) "custom" then
    let tr :=
      Compose [Resize 96 None; CenterCrop 96; ToTensor;
               Normalize custom_mean custom_std] in
    dataset <- (if is_train
                then custom_split w (DATA_PATH (DATA config)) "train" tr
                else custom_split w (DATA_PATH (DATA config)) "valid" tr) ;;
    Ok (dataset, 8)
  else Raise NotImplementedError.

(** ** [build_loader] *)

(** [ceil(a / b)] on integers. *)
Definition ceil_div (a b : Z) : Z := - ((- a) / b).

(** [np.arange(start, stop, step)] on integers: [start + i * step] for
    [0 <= i < ceil((stop - start) / step)]. *)
Definition arange (start stop step : Z) : result (list Z) :=
  if step =? 0 then Raise ZeroDivisionError
  else
    let n := Z.max 0 (ceil_div (stop - start) step) in
    Ok (map (fun i => start + Z.of_nat i * step) (seq 0 (Z.to_nat n))).

Inductive sampler : Type :=
| SubsetRandomSampler (indices : list Z)
| DistributedSampler (d : dataset) (num_replicas rank : Z) (shuffle : bool).

Record DataLoader : Type := {
  loader_dataset : dataset;
  loader_sampler : sampler;
  batch_size : Z;
  num_workers : Z;
  pin_memory : bool;
  drop_last : bool
}.

Record Mixup : Type := {
  mixup_alpha : float;
  cutmix_alpha : float;
  cutmix_minmax : option (list float);
  prob : float;
  switch_prob : float;
  mode : string;
  label_smoothing : float;
  num_classes : Z
}.

Record loaders : Type := {
  out_config : config;
  dataset_train : dataset;
  dataset_val : dataset;
  data_loader_train : DataLoader;
  data_loader_val : DataLoader;
  mixup_fn : option Mixup
}.

Definition is_some {A : Type} (o : option A) : bool :=
  match o with
  | Some _ => true
  | None => false
  end.

(** [build_dataset] never hands back [None] for the dataset, so the
    [dataset_val is None] branches are left out.  [out_config] is the
    configuration after the assignment to [MODEL.NUM_CLASSES]. *)
Definition build_loader (w : world) (config : config) : result loaders :=
  '(dataset_train, nb_classes) <- build_dataset w true config ;;
  let config := set_NUM_CLASSES config nb_classes in
  '(dataset_val, _) <- build_dataset w false config ;;
  let num_tasks := get_world_size w in
  let global_rank := get_rank w in
  sampler_train <-
    (if ZIP_MODE (DATA config) && String.eqb (CACHE_MODE (DATA config)) "part"
     then
       indices <- arange (get_rank w) (len w dataset_train)
                         (get_world_size w) ;;
       Ok (SubsetRandomSampler indices)
     else Ok (DistributedSampler dataset_train num_tasks global_rank true)) ;;
  indices <- arange (get_rank w) (len w dataset_val) (get_world_size w) ;;
  let sampler_val := SubsetRandomSampler indices in
  let data_loader_train :=
    {| loader_dataset := dataset_train;
       loader_sampler := sampler_train;
       batch_size := BATCH_SIZE (DATA config);
       num_workers := NUM_WORKERS (DATA config);
       pin_memory := PIN_MEMORY (DATA config);
       drop_last := true |} in
  let data_loader_val :=
    {| loader_dataset := dataset_val;
       loader_sampler := sampler_val;
       batch_size := TEST_BATCH_SIZE (DATA config);
       num_workers := NUM_WORKERS (DATA config);
       pin_memory := PIN_MEMORY (DATA config);
       drop_last := false |} in
  let mixup_active :=
    Float.ltb (S754_zero false) (MIXUP (AUG config))
    || Float.ltb (S754_zero false) (CUTMIX (AUG config))
    || is_some (CUTMIX_MINMAX (AUG config)) in
  let mixup_fn :=
    if mixup_active then
      Some {| mixup_alpha := MIXUP (AUG config);
              cutmix_alpha := CUTMIX (AUG config);
              cutmix_minmax := CUTMIX_MINMAX (AUG config);
              prob := MIXUP_PROB (AUG config);
              switch_prob := MIXUP_SWITCH_PROB (AUG config);
              mode := MIXUP_MODE (AUG config);
              label_smoothing := LABEL_SMOOTHING (MODEL config);
              num_classes := NUM_CLASSES (MODEL config) |}
    else None in
  Ok {| out_config := config;
        dataset_train := dataset_train;
        dataset_val := dataset_val;
        data_loader_train := data_loader_train;
        data_loader_val := data_loader_val;
        mixup_fn := mixup_fn |}.


(** ** The label file on disk *)

(** [open(label_path, 'r')] opens the file in text mode: [f.readline()]
    reads it 8192 bytes at a time, decodes each chunk as a whole (the
    locale encoding is taken to be UTF-8, errors are strict) and stops
    reading once a decoded chunk holds a line end.  A file is kept as the
    decoder sees it: a sequence of characters below U+0100, each in its
    UTF-8 encoding (one byte below U+0080, two bytes from there on), and
    of bytes that can start no character (a lone continuation byte,
    [0xC0], [0xC1], [0xF5] to [0xFF]). *)

Module Disk.

Inductive piece : Type :=
| Char (c : ascii)
| Invalid.

(** [TextIOWrapper._CHUNK_SIZE] *)
Definition CHUNK_SIZE : Z := 8192.

(** The number of bytes of a piece. *)
Definition width (u : piece) : Z :=
  match u with
  | Char c => if (nat_of_ascii c <? 128)%nat then 1 else 2
  | Invalid => 1
  end.

(** Where [readline] stands: still in the first line; just behind a
    carriage return, whose line end is settled by what follows; or
    behind the line end, which was found when chunk [chunk] was
    decoded. *)
Inductive state : Type :=
| Searching
| AfterCR
| Found (chunk : Z).

(** [scan pos st pieces] reads on from byte offset [pos].  A character is
    decoded with the chunk that holds its last byte, and a byte that does
    not decode fails the whole chunk it lies in ([UnicodeDecodeError], a
    [ValueError]), also when the line end comes earlier in that chunk;
    what lies in later chunks is not read.  A carriage return, a line
    feed and the two in a row each end the line and are read as a line
    feed. *)
Fixpoint scan (pos : Z) (st : state) (pieces : list piece) : result string :=
  match pieces with
  | [] =>
      match st with
      | AfterCR => Ok (String "010" EmptyString)
      | _ => Ok EmptyString
      end
  | u :: rest =>
      let chunk := (pos + width u - 1) / CHUNK_SIZE in
      match st, u with
      | Searching, Invalid => Raise ValueError
      | Searching, Char c =>
          if Ascii.eqb c "010" then
            l <- scan (pos + width u) (Found chunk) rest ;;
            Ok (String "010" l)
          else if Ascii.eqb c "013" then
            scan (pos + width u) AfterCR rest
          else
            l <- scan (pos + width u) Searching rest ;;
            Ok (String c l)
      | AfterCR, Invalid => Raise ValueError
      | AfterCR, Char c =>
          l <- scan (pos + width u) (Found chunk) rest ;;
          Ok (String "010" l)
      | Found k, Invalid =>
          if chunk <=? k then Raise ValueError else Ok EmptyString
      | Found k, Char c =>
          if chunk <=? k then scan (pos + width u) (Found k) rest
          else Ok EmptyString
      end
  end.

(** [f.readline()] on a file just opened. *)
Definition readline (pieces : list piece) : result string :=
  scan 0 Searching pieces.

(** [CustomDataset.__getitem__], with the label file read from the
    bytes [files] holds for its path ([None]: the file cannot be
    opened). *)
Definition __getitem__ (w : world) (files : string -> option (list piece))
    (self : CustomDataset.t) (idx : Z) : result (picture * Z) :=
  image_filename <- getitem_list (CustomDataset.image_filenames self) idx ;;
  let image_path :=
    Path.join (CustomDataset.image_dir self) image_filename in
  let label_path :=
    Path.join (CustomDataset.label_dir self)
              (fst (Path.splitext image_filename) ++ ".txt") in
  '(width, height) <- of_option OSError (image_size w image_path) ;;
  pieces <- of_option OSError (files label_path) ;;
  text <- readline pieces ;;
  let line := Str.strip text in
  '(class_id, cx, cy, bw, bh) <- CustomDataset.parse_label line ;;
  class_id <- Float.to_int class_id ;;
  box <- CustomDataset.pixel_box cx cy bw bh width height ;;
  let img := Cropped image_path box in
  let img :=
    match CustomDataset.transform_ self with
    | Some tr => Transformed tr img
    | None => img
    end in
  Ok (img, class_id).

End Disk.
(** * Vocabulary of the properties *)

(** [s] ends with [suf], said without the code: some text placed in
    front of [suf] gives [s]. *)
Definition has_suffix (s suf : string) : Prop :=
  exists stem, s = stem ++ suf.

(** The number of image files in a listing, counted entry by entry. *)
Fixpoint count_image_files (entries : list string) : nat :=
  match entries with
  | [] => O
  | f :: rest =>
      if CustomDataset.is_image_name f then S (count_image_files rest)
      else count_image_files rest
  end.

(** ** Example environments *)

Fixpoint lookup {A : Type} (table : list (string * A)) (p : string)
  : option A :=
  match table with
  | [] => None
  | (q, a) :: rest => if String.eqb p q then Some a else lookup rest p
  end.

Definition TAB : string := String "009" EmptyString.
Definition LF : string := String "010" EmptyString.

Definition demo_images : list string :=
  ["a.jpg"; "b.png"; "c.jpeg"; "d.JPG"; "e.PNG"; "notes.txt"].

Definition demo_sizes : list (string * (Z * Z)) :=
  [("/data/train/images/a.jpg", (100, 100));
   ("/data/train/images/b.png", (640, 480));
   ("/data/valid/images/v.jpg", (100, 100))].

Definition demo_labels : list (string * string) :=
  [("/data/train/labels/a.txt", "3 0.5 0.5 0.5 0.5" ++ LF);
   ("/data/valid/labels/v.txt",
    "1 0.25 0.5 0.1 0.2" ++ LF ++ "7 0.1 0.1 0.1" ++ LF)].

(** A data directory whose split directories list [labels] before
    [images]. *)
Definition demo_world : world :=
  {| listdir :=
       lookup [("/data/train", ["labels"; "images"]);
               ("/data/train/images", demo_images);
               ("/data/train/labels", ["a.txt"; "b.txt"]);
               ("/data/valid", ["labels"; "images"]);
               ("/data/valid/images", ["v.jpg"]);
               ("/data/valid/labels", ["v.txt"])];
     image_size := lookup demo_sizes;
     file_text := lookup demo_labels;
     external_len := fun _ _ => 50000;
     get_rank := 1;
     get_world_size := 4 |}.

(** The same directory on a file system that lists entries in
    alphabetical order: [images] comes before [labels]. *)
Definition sorted_world : world :=
  {| listdir :=
       lookup [("/data/train", ["images"; "labels"]);
               ("/data/train/images", demo_images);
               ("/data/train/labels", ["a.txt"; "b.txt"]);
               ("/data/valid", ["images"; "labels"]);
               ("/data/valid/images", ["v.jpg"]);
               ("/data/valid/labels", ["v.txt"])];
     image_size := lookup demo_sizes;
     file_text := lookup demo_labels;
     external_len := fun _ _ => 50000;
     get_rank := 1;
     get_world_size := 4 |}.

Definition zero : float := S754_zero false.

Definition demo_config (dataset : string) (preset : option string) : config :=
  {| DATA := {| DATASET := dataset;
                DATA_PATH := "/data";
                IMG_SIZE := 224;
                TEST_SIZE := 224;
                INTERPOLATION := "bilinear";
                ZIP_MODE := false;
                CACHE_MODE := "part";
                BATCH_SIZE := 32;
                TEST_BATCH_SIZE := 64;
                NUM_WORKERS := 8;
                PIN_MEMORY := true |};
     AUG := {| PRESET := preset;
               COLOR_JITTER := zero;
               AUTO_AUGMENT := "none";
               REPROB := zero;
               REMODE := "pixel";
               RECOUNT := 1;
               MIXUP := zero;
               CUTMIX := zero;
               CUTMIX_MINMAX := None;
               MIXUP_PROB := zero;
               MIXUP_SWITCH_PROB := zero;
               MIXUP_MODE := "batch" |};
     TEST := {| CROP := true |};
     MODEL := {| ARCH := "RepVGG-A0";
                 NUM_CLASSES := 1000;
                 LABEL_SMOOTHING := zero |};
     OUTPUT := "/out";
     LOCAL_RANK := 0 |}.

(** The transform [build_dataset] gives the custom dataset. *)
Definition custom_transform : transform :=
  Compose [Resize 96 None; CenterCrop 96; ToTensor;
           Normalize custom_mean custom_std].

(** ** The crop rectangle, as the formulas state it *)

(** The binary64 value [0.5]. *)
Definition one_half : float := S754_finite false 4503599627370496 (-53).

(** [int(c*n - b*n/2)] *)
Definition px_low (c b : float) (n : Z) : result Z :=
  cn <- Float.mul_int c n ;;
  bn <- Float.mul_int b n ;;
  h <- Float.div_int bn 2 ;;
  Float.to_int (Float.sub cn h).

(** [int(c*n + b*n/2)] *)
Definition px_high (c b : float) (n : Z) : result Z :=
  cn <- Float.mul_int c n ;;
  bn <- Float.mul_int b n ;;
  h <- Float.div_int bn 2 ;;
  Float.to_int (Float.add cn h).

(** The image [__getitem__] returns for the crop [p] of a dataset whose
    transform is [tr]. *)
Definition with_transform (tr : option transform) (p : picture) : picture :=
  match tr with
  | Some t => Transformed t p
  | None => p
  end.

(** The paths [__getitem__] reads for the file name [f]. *)
Definition image_path_of (self : CustomDataset.t) (f : string) : string :=
  Path.join (CustomDataset.image_dir self) f.

Definition label_path_of (self : CustomDataset.t) (f : string) : string :=
  Path.join (CustomDataset.label_dir self)
            (fst (Path.splitext f) ++ ".txt").

(** ** Recognized names *)

Definition known_dataset (name : string) : Prop :=
  name = "imagenet" \/ name = "cf100" \/ name = "custom".

Definition known_preset (preset : string) : Prop :=
  Str.strip preset = "raug15" \/ Str.strip preset = "weak"
  \/ Str.strip preset = "none".

(** An ImageNet configuration whose preset is not a recognized one. *)
Definition bogus_preset_config : config :=
  demo_config "imagenet" (Some "bogus").

(** ** Label files and label lines *)

(** The first line of a text, without its line end. *)
Fixpoint first_line (text : string) : string :=
  match text with
  | EmptyString => EmptyString
  | String c rest =>
      if Ascii.eqb c "010" || Ascii.eqb c "013" then EmptyString
      else String c (first_line rest)
  end.

(** The world [w] with the text of the file at [p] replaced by [text]. *)
Definition set_file_text (w : world) (p text : string) : world :=
  {| listdir := listdir w;
     image_size := image_size w;
     file_text := fun q => if String.eqb q p then Some text else file_text w q;
     external_len := external_len w;
     get_rank := get_rank w;
     get_world_size := get_world_size w |}.

(** A text made of whitespace only. *)
Fixpoint blank (s : string) : bool :=
  match s with
  | EmptyString => true
  | String c s' => Str.isspace c && blank s'
  end.

(** A text without any whitespace. *)
Fixpoint no_space (s : string) : bool :=
  match s with
  | EmptyString => true
  | String c s' => negb (Str.isspace c) && no_space s'
  end.

(** A field that [float] accepts. *)
Definition numeric (f : string) : Prop :=
  exists x, Float.of_string f = Ok x.

(** The line is five numeric fields with one blank between neighbours. *)
Definition five_space_separated (line : string) : Prop :=
  exists f0 f1 f2 f3 f4,
    line = f0 ++ " " ++ f1 ++ " " ++ f2 ++ " " ++ f3 ++ " " ++ f4
    /\ numeric f0 /\ numeric f1 /\ numeric f2 /\ numeric f3 /\ numeric f4.

(** A field: not empty and free of whitespace.  A separator: not empty
    and made of whitespace. *)
Definition is_field (f : string) : Prop := f <> EmptyString /\ no_space f = true.
Definition is_separator (s : string) : Prop := s <> EmptyString /\ blank s = true.

(** The line is five numeric fields with a run of whitespace between
    neighbours, and possibly whitespace before the first and after the
    last. *)
Definition five_whitespace_separated (line : string) : Prop :=
  exists f0 f1 f2 f3 f4 s0 s1 s2 s3 s4 s5,
    line = s0 ++ f0 ++ s1 ++ f1 ++ s2 ++ f2 ++ s3 ++ f3 ++ s4 ++ f4 ++ s5
    /\ blank s0 = true /\ blank s5 = true
    /\ is_separator s1 /\ is_separator s2
    /\ is_separator s3 /\ is_separator s4
    /\ is_field f0 /\ is_field f1 /\ is_field f2
    /\ is_field f3 /\ is_field f4
    /\ numeric f0 /\ numeric f1 /\ numeric f2 /\ numeric f3 /\ numeric f4.

(** [rest] is empty or begins with whitespace. *)
Definition at_boundary (rest : string) : Prop :=
  match rest with
  | EmptyString => True
  | String c _ => Str.isspace c = true
  end.

(** [tokens s fs]: [fs] are the maximal whitespace-free runs of [s], in
    order. *)
Inductive tokens : string -> list string -> Prop :=
| tokens_nil (b : string) :
    blank b = true -> tokens b []
| tokens_cons (b f rest : string) (fs : list string) :
    blank b = true -> is_field f -> at_boundary rest -> tokens rest fs ->
    tokens (b ++ f ++ rest) (f :: fs).

(** The dataset of [train/images] and [train/labels] of the example. *)
Definition demo_train : CustomDataset.t :=
  {| CustomDataset.image_dir := "/data/train/images";
     CustomDataset.label_dir := "/data/train/labels";
     CustomDataset.transform_ := None;
     CustomDataset.image_filenames := ["a.jpg"; "b.png"] |}.

Definition demo_valid : CustomDataset.t :=
  {| CustomDataset.image_dir := "/data/valid/images";
     CustomDataset.label_dir := "/data/valid/labels";
     CustomDataset.transform_ := None;
     CustomDataset.image_filenames := ["v.jpg"] |}.

(** A label line whose fields are separated by tabs. *)
Definition tab_line : string :=
  "0" ++ TAB ++ "0.5" ++ TAB ++ "0.5" ++ TAB ++ "0.5" ++ TAB ++ "0.5".

Definition tab_world : world :=
  set_file_text demo_world "/data/train/labels/a.txt" tab_line.

(** ** Rounding *)

(** The mantissa of a shift record is not negative. *)
Definition nonneg (mrs : shr_record) : Prop := 0 <= shr_m mrs.

(** ** Vocabulary of the further properties *)

(** The name of the split directory [build_dataset] reads. *)
Definition split_name (is_train : bool) : string :=
  if is_train then "train" else "valid".

(** [c] occurs in [s]. *)
Fixpoint contains (c : ascii) (s : string) : bool :=
  match s with
  | EmptyString => false
  | String d s' => Ascii.eqb d c || contains c s'
  end.

(** [s] is made of dots only. *)
Fixpoint all_dots (s : string) : bool :=
  match s with
  | EmptyString => true
  | String d s' => Ascii.eqb d "." && all_dots s'
  end.

(** The file a returned image was cropped from. *)
Fixpoint crop_source (p : picture) : string :=
  match p with
  | Cropped src _ => src
  | Transformed _ p' => crop_source p'
  end.

(** The world [w] with the listing of the directory [p] replaced. *)
Definition set_listdir (w : world) (p : string) (entries : list string)
  : world :=
  {| listdir := fun q => if String.eqb q p then Some entries else listdir w q;
     image_size := image_size w;
     file_text := file_text w;
     external_len := external_len w;
     get_rank := get_rank w;
     get_world_size := get_world_size w |}.

(** A world without any file or directory. *)
Definition no_files : world :=
  {| listdir := fun _ => None;
     image_size := fun _ => None;
     file_text := fun _ => None;
     external_len := fun _ _ => 0;
     get_rank := 0;
     get_world_size := 1 |}.

(** The binary64 value nearest to [0.8]. *)
Definition point_eight : float := S754_finite false 7205759403792794 (-53).

(** The configuration [cfg] with [AUG.MIXUP] set to [alpha]. *)
Definition set_MIXUP (cfg : config) (alpha : float) : config :=
  let a := AUG cfg in
  {| DATA := DATA cfg;
     AUG := {| PRESET := PRESET a;
               COLOR_JITTER := COLOR_JITTER a;
               AUTO_AUGMENT := AUTO_AUGMENT a;
               REPROB := REPROB a;
               REMODE := REMODE a;
               RECOUNT := RECOUNT a;
               MIXUP := alpha;
               CUTMIX := CUTMIX a;
               CUTMIX_MINMAX := CUTMIX_MINMAX a;
               MIXUP_PROB := MIXUP_PROB a;
               MIXUP_SWITCH_PROB := MIXUP_SWITCH_PROB a;
               MIXUP_MODE := MIXUP_MODE a |};
     TEST := TEST cfg;
     MODEL := MODEL cfg;
     OUTPUT := OUTPUT cfg;
     LOCAL_RANK := LOCAL_RANK cfg |}.

(** [int((256 / 224) * test_size)], the resize of the evaluation
    transform when [TEST.CROP] is set. *)
Definition crop_resize (test_size : Z) : result Z :=
  ratio <- Float.int_truediv 256 224 ;;
  scaled <- Float.mul_int ratio test_size ;;
  Float.to_int scaled.

(** [crop_resize] agrees with [floor(8 * t / 7)] for [t = 0 .. n-1]. *)
Definition crop_resize_exact_below (n : Z) : bool :=
  forallb (fun k =>
             match crop_resize (Z.of_nat k) with
             | Ok s => s =? Z.of_nat k * 8 / 7
             | Raise _ => false
             end)
          (seq 0 (Z.to_nat n)).

(** ** Files on disk *)

(** The pieces of a text that decodes. *)
Fixpoint encode (s : string) : list Disk.piece :=
  match s with
  | EmptyString => []
  | String c s' => Disk.Char c :: encode s'
  end.

(** The text a file decodes to, up to its first byte that does not
    decode. *)
Fixpoint decoded (pieces : list Disk.piece) : string :=
  match pieces with
  | [] => EmptyString
  | Disk.Char c :: rest => String c (decoded rest)
  | Disk.Invalid :: _ => EmptyString
  end.

(** The number of bytes of a file. *)
Fixpoint bytes (pieces : list Disk.piece) : Z :=
  match pieces with
  | [] => 0
  | u :: rest => Disk.width u + bytes rest
  end.

(** Every byte of the file decodes. *)
Fixpoint decodable (pieces : list Disk.piece) : bool :=
  match pieces with
  | [] => true
  | Disk.Char _ :: rest => decodable rest
  | Disk.Invalid :: _ => false
  end.

(** A text without a carriage return or a line feed. *)
Fixpoint one_line (s : string) : bool :=
  match s with
  | EmptyString => true
  | String c s' =>
      negb (Ascii.eqb c "010" || Ascii.eqb c "013") && one_line s'
  end.

(** Two label files, each present or absent, whose first line is read
    without a decoding error and is the same. *)
Definition same_first_read (o1 o2 : option (list Disk.piece)) : Prop :=
  match o1, o2 with
  | Some u1, Some u2 =>
      (exists l1, Disk.readline u1 = Ok l1)
      /\ (exists l2, Disk.readline u2 = Ok l2)
      /\ first_line (decoded u1) = first_line (decoded u2)
  | None, None => True
  | _, _ => False
  end.

(** [n] copies of a piece. *)
Definition filler (n : Z) (u : Disk.piece) : list Disk.piece :=
  repeat u (Z.to_nat n).

(** The label files of the example, then [a.txt] with two bytes that
    do not decode behind its first line. *)
Definition demo_files (p : string) : option (list Disk.piece) :=
  option_map encode (lookup demo_labels p).

Definition garbled_files (p : string) : option (list Disk.piece) :=
  if String.eqb p "/data/train/labels/a.txt"
  then Some (encode ("3 0.5 0.5 0.5 0.5" ++ LF)
             ++ [Disk.Invalid; Disk.Invalid])%list
  else demo_files p.

(** Two label files, each present or absent, whose decodable text has
    the same first line, however they go on. *)
Definition same_first_line (o1 o2 : option (list Disk.piece)) : Prop :=
  match o1, o2 with
  | Some u1, Some u2 => first_line (decoded u1) = first_line (decoded u2)
  | None, None => True
  | _, _ => False
  end.

(** * Properties *)

(** ** Facts about the error monad *)

Lemma bind_Ok_inv {A B : Type} (m : result A) (k : A -> result B) (b : B) :
  bind m k = Ok b -> exists a, m = Ok a /\ k a = Ok b.
Proof.
  destruct m as [a|e]; simpl; intros H; [eauto | discriminate].
Qed.

(** ** Strings: suffixes *)

Lemma length_append (a b : string) :
  String.length (a ++ b) = (String.length a + String.length b)%nat.
Proof.
  induction a as [|c a IH]; simpl; [reflexivity | now rewrite IH].
Qed.

Lemma endswith_spec (s suf : string) :
  Str.endswith s suf = true <-> has_suffix s suf.
Proof.
  induction s as [|c s IH].
  - cbn [Str.endswith]. destruct (String.eqb_spec EmptyString suf) as [E|E].
    + split; [intros _; exists EmptyString; now subst | reflexivity].
    + split; [discriminate | intros [stem H]].
      destruct stem; simpl in H; [congruence | discriminate].
  - cbn [Str.endswith]. destruct (String.eqb_spec (String c s) suf) as [E|E].
    + split; [intros _; exists EmptyString; now subst | reflexivity].
    + rewrite IH. split.
      * intros [stem ->]. exists (String c stem). reflexivity.
      * intros [stem H]. destruct stem as [|d stem]; simpl in H.
        -- congruence.
        -- injection H as _ ->. now exists stem.
Qed.

(** A suffix no longer than [s] is found in [stem ++ s] exactly when it
    is found in [s]. *)
Lemma endswith_app (stem s suf : string) :
  (String.length suf <= String.length s)%nat ->
  Str.endswith (stem ++ s) suf = Str.endswith s suf.
Proof.
  intros Hlen. induction stem as [|c stem IH]; [reflexivity|].
  cbn [append Str.endswith].
  destruct (String.eqb_spec (String c (stem ++ s)) suf) as [E|E]; [|exact IH].
  exfalso. apply (f_equal String.length) in E. simpl in E.
  rewrite length_append in E. lia.
Qed.

(** ** The file listing of [CustomDataset] *)

Section Listing.

Variable w : world.
Variables image_dir label_dir : string.
Variable tr : option transform.
Variable entries : list string.
Hypothesis Hlist : listdir w image_dir = Some entries.

Lemma init_Ok :
  CustomDataset.__init__ w image_dir label_dir tr
  = Ok {| CustomDataset.image_dir := image_dir;
          CustomDataset.label_dir := label_dir;
          CustomDataset.transform_ := tr;
          CustomDataset.image_filenames :=
            filter CustomDataset.is_image_name entries |}.
Proof.
  unfold CustomDataset.__init__. rewrite Hlist. reflexivity.
Qed.

End Listing.

Lemma is_image_name_spec (f : string) :
  CustomDataset.is_image_name f = true
  <-> has_suffix f ".jpg" \/ has_suffix f ".png".
Proof.
  unfold CustomDataset.is_image_name.
  rewrite orb_true_iff, !endswith_spec. reflexivity.
Qed.

Lemma is_image_name_other_suffix (stem suf : string) :
  (4 <= String.length suf)%nat ->
  CustomDataset.is_image_name suf = false ->
  CustomDataset.is_image_name (stem ++ suf) = false.
Proof.
  unfold CustomDataset.is_image_name. intros Hlen H.
  rewrite !endswith_app by (simpl; lia). exact H.
Qed.

Lemma length_filter_image (entries : list string) :
  List.length (filter CustomDataset.is_image_name entries)
  = count_image_files entries.
Proof.
  induction entries as [|f rest IH]; simpl; [reflexivity|].
  destruct (CustomDataset.is_image_name f); simpl; now rewrite IH.
Qed.

Lemma count_occ_filter_image (entries : list string) (f : string) :
  count_occ string_dec (filter CustomDataset.is_image_name entries) f
  = if CustomDataset.is_image_name f
    then count_occ string_dec entries f else O.
Proof.
  induction entries as [|g rest IH]; simpl.
  - now destruct (CustomDataset.is_image_name f).
  - destruct (CustomDataset.is_image_name g) eqn:Eg; simpl;
      destruct (string_dec g f) as [->|N]; rewrite IH; try reflexivity.
    + now rewrite Eg.
    + now rewrite Eg.
Qed.

(** C9. The file list of a [CustomDataset] holds exactly the entries of
    the image directory whose name ends in [.jpg] or [.png], letter case
    included, each as often and in the order the listing has it; a name
    ending in [.jpeg], [.JPG] or [.PNG], or in any other suffix, is not in
    the list and is not counted by [__len__]. *)
Theorem image_filenames_exact_suffix
    (w : world) (image_dir label_dir : string) (tr : option transform)
    (entries : list string) :
  listdir w image_dir = Some entries ->
  exists ds,
    CustomDataset.__init__ w image_dir label_dir tr = Ok ds
    /\ (forall f, In f (CustomDataset.image_filenames ds)
                  <-> In f entries
                      /\ (has_suffix f ".jpg" \/ has_suffix f ".png"))
    /\ (forall f, count_occ string_dec (CustomDataset.image_filenames ds) f
                  = if CustomDataset.is_image_name f
                    then count_occ string_dec entries f else O)
    /\ (forall stem,
           ~ In (stem ++ ".jpeg") (CustomDataset.image_filenames ds)
           /\ ~ In (stem ++ ".JPG") (CustomDataset.image_filenames ds)
           /\ ~ In (stem ++ ".PNG") (CustomDataset.image_filenames ds))
    /\ (forall f, ~ has_suffix f ".jpg" -> ~ has_suffix f ".png" ->
                  ~ In f (CustomDataset.image_filenames ds))
    /\ CustomDataset.__len__ ds = Z.of_nat (count_image_files entries).
Proof.
  intros Hlist. eexists. split; [apply init_Ok; exact Hlist|]. simpl.
  assert (Hin : forall f, In f (filter CustomDataset.is_image_name entries)
                          <-> In f entries
                              /\ (has_suffix f ".jpg" \/ has_suffix f ".png")).
  { intros f. rewrite filter_In, is_image_name_spec. reflexivity. }
  assert (Hout : forall stem suf,
             (4 <= String.length suf)%nat ->
             CustomDataset.is_image_name suf = false ->
             ~ In (stem ++ suf) (filter CustomDataset.is_image_name entries)).
  { intros stem suf Hlen Hsuf Hf. apply filter_In in Hf as [_ Hf].
    rewrite (is_image_name_other_suffix stem suf Hlen Hsuf) in Hf.
    discriminate. }
  split; [exact Hin|]. split; [apply count_occ_filter_image|].
  split; [|split].
  - intros stem. repeat split; apply Hout; simpl; (lia || reflexivity).
  - intros f Hj Hp Hf. apply Hin in Hf as [_ [H|H]]; contradiction.
  - unfold CustomDataset.__len__. simpl. now rewrite length_filter_image.
Qed.

Lemma image_filenames_exact_suffix_witness :
  listdir demo_world "/data/train/images" = Some demo_images
  /\ exists ds,
      CustomDataset.__init__ demo_world "/data/train/images"
        "/data/train/labels" None = Ok ds
      /\ CustomDataset.image_filenames ds = ["a.jpg"; "b.png"]
      /\ CustomDataset.__len__ ds = 2.
Proof.
  split; [reflexivity|].
  destruct (image_filenames_exact_suffix demo_world "/data/train/images"
              "/data/train/labels" None demo_images eq_refl)
    as [ds [Hinit _]].
  exists ds. split; [exact Hinit|].
  vm_compute in Hinit. injection Hinit as <-. split; reflexivity.
Defined.

(** C3. The length reported by [__len__] is the number of image files
    that the listing of the image directory held when the dataset was
    built; it is a property of the dataset value and stays the same in
    every later state of the file system. *)
Theorem len_counts_image_files
    (w : world) (image_dir label_dir : string) (tr : option transform)
    (entries : list string) :
  listdir w image_dir = Some entries ->
  exists ds,
    CustomDataset.__init__ w image_dir label_dir tr = Ok ds
    /\ CustomDataset.__len__ ds = Z.of_nat (count_image_files entries)
    /\ forall w', len w' (Custom ds) = Z.of_nat (count_image_files entries).
Proof.
  intros Hlist. eexists. split; [apply init_Ok; exact Hlist|].
  assert (H : CustomDataset.__len__
                {| CustomDataset.image_dir := image_dir;
                   CustomDataset.label_dir := label_dir;
                   CustomDataset.transform_ := tr;
                   CustomDataset.image_filenames :=
                     filter CustomDataset.is_image_name entries |}
              = Z.of_nat (count_image_files entries)).
  { unfold CustomDataset.__len__. simpl. now rewrite length_filter_image. }
  split; [exact H | intros w'; exact H].
Qed.

Lemma len_counts_image_files_witness :
  listdir demo_world "/data/train/images" = Some demo_images
  /\ count_image_files demo_images = 2%nat
  /\ exists ds,
      CustomDataset.__init__ demo_world "/data/train/images"
        "/data/train/labels" None = Ok ds
      /\ CustomDataset.__len__ ds = 2
      /\ forall w', len w' (Custom ds) = 2.
Proof.
  split; [reflexivity|]. split; [reflexivity|].
  exact (len_counts_image_files demo_world "/data/train/images"
           "/data/train/labels" None demo_images eq_refl).
Defined.

(** ** [build_dataset] on the custom dataset *)

Lemma scan_dirs_other (path : string) (entries : list string) :
  (forall e, In e entries -> e <> "images" /\ e <> "labels") ->
  scan_dirs path entries = [].
Proof.
  induction entries as [|e rest IH]; intros H; [reflexivity|].
  destruct (H e (or_introl eq_refl)) as [Hi Hl]. simpl.
  apply String.eqb_neq in Hi, Hl. rewrite Hi, Hl. simpl.
  apply IH. intros e' He'. apply H. now right.
Qed.

Lemma scan_dirs_app (path : string) (l1 l2 : list string) :
  scan_dirs path (l1 ++ l2) = (scan_dirs path l1 ++ scan_dirs path l2)%list.
Proof.
  induction l1 as [|e rest IH]; simpl; [reflexivity|].
  rewrite IH, <- !app_assoc. reflexivity.
Qed.

(** [dir_list] holds the two directories in the order the listing has
    them. *)
Lemma scan_dirs_order (path first second : string)
    (pre mid post : list string) :
  (forall e, In e (pre ++ mid ++ post) -> e <> "images" /\ e <> "labels") ->
  (first = "images" /\ second = "labels"
   \/ first = "labels" /\ second = "images") ->
  scan_dirs path (pre ++ first :: mid ++ second :: post)
  = [Path.join path first; Path.join path second].
Proof.
  intros Hother Hnames.
  assert (Hpre : scan_dirs path pre = []).
  { apply scan_dirs_other. intros e He. apply Hother.
    apply in_or_app. now left. }
  assert (Hmid : scan_dirs path mid = []).
  { apply scan_dirs_other. intros e He. apply Hother.
    apply in_or_app. right. apply in_or_app. now left. }
  assert (Hpost : scan_dirs path post = []).
  { apply scan_dirs_other. intros e He. apply Hother.
    apply in_or_app. right. apply in_or_app. now right. }
  rewrite scan_dirs_app. cbn [scan_dirs]. rewrite scan_dirs_app.
  cbn [scan_dirs]. rewrite Hpre, Hmid, Hpost.
  destruct Hnames as [[-> ->]|[-> ->]]; reflexivity.
Qed.

(** The custom dataset takes its image directory from the entry listed
    second and its label directory from the entry listed first. *)
Lemma custom_split_by_listing_order
    (w : world) (data_path split first second : string)
    (pre mid post entries : list string) (tr : transform) :
  listdir w (Path.join data_path split)
  = Some (pre ++ first :: mid ++ second :: post)%list ->
  (forall e, In e (pre ++ mid ++ post) -> e <> "images" /\ e <> "labels") ->
  (first = "images" /\ second = "labels"
   \/ first = "labels" /\ second = "images") ->
  listdir w (Path.join (Path.join data_path split) second) = Some entries ->
  custom_split w data_path split tr
  = Ok (Custom
          {| CustomDataset.image_dir :=
               Path.join (Path.join data_path split) second;
             CustomDataset.label_dir :=
               Path.join (Path.join data_path split) first;
             CustomDataset.transform_ := Some tr;
             CustomDataset.image_filenames :=
               filter CustomDataset.is_image_name entries |}).
Proof.
  intros Hlist Hother Hnames Hsecond. unfold custom_split.
  rewrite Hlist. cbn [of_option bind].
  rewrite (scan_dirs_order _ first second pre mid post Hother Hnames).
  cbn [getitem_list List.length Z.of_nat]. simpl.
  unfold CustomDataset.__init__. rewrite Hsecond. reflexivity.
Qed.

(** C1. On a data directory whose [train] directory lists [images] before
    [labels], [build_dataset] builds the training dataset with the
    [labels] directory as its image directory and the [images] directory
    as its label directory; the dataset then holds no image at all,
    though [train/images] holds two.  The same happens for [valid]. *)
Theorem build_dataset_custom_images_listed_first :
  listdir sorted_world "/data/train" = Some ["images"; "labels"]
  /\ (exists d,
         build_dataset sorted_world true (demo_config "custom" None)
         = Ok (Custom d, 8)
         /\ CustomDataset.image_dir d = "/data/train/labels"
         /\ CustomDataset.label_dir d = "/data/train/images"
         /\ CustomDataset.__len__ d = 0)
  /\ (exists d,
         build_dataset sorted_world false (demo_config "custom" None)
         = Ok (Custom d, 8)
         /\ CustomDataset.image_dir d = "/data/valid/labels"
         /\ CustomDataset.label_dir d = "/data/valid/images"
         /\ CustomDataset.__len__ d = 0).
Proof.
  split; [reflexivity|].
  split; eexists; (split; [vm_compute; reflexivity|]);
    repeat split; reflexivity.
Qed.

(** With [labels] listed before [images] the directories are the ones
    the layout names. *)
Example build_dataset_custom_labels_listed_first :
  exists d,
    build_dataset demo_world true (demo_config "custom" None)
    = Ok (Custom d, 8)
    /\ CustomDataset.image_dir d = "/data/train/images"
    /\ CustomDataset.label_dir d = "/data/train/labels"
    /\ CustomDataset.image_filenames d = ["a.jpg"; "b.png"].
Proof.
  eexists. split; [vm_compute; reflexivity|]. repeat split; reflexivity.
Qed.

(** ** The crop rectangle of [__getitem__] *)

Lemma pixel_box_spec (cx cy bw bh : float) (W H x1 y1 x2 y2 : Z) :
  CustomDataset.pixel_box cx cy bw bh W H = Ok (x1, y1, x2, y2)
  <-> px_low cx bw W = Ok x1 /\ px_low cy bh H = Ok y1
      /\ px_high cx bw W = Ok x2 /\ px_high cy bh H = Ok y2.
Proof.
  unfold CustomDataset.pixel_box, px_low, px_high.
  destruct (Float.mul_int cx W) as [cxw|]; cbn [bind];
    [|split; [discriminate | intros [? _]; discriminate]].
  destruct (Float.mul_int cy H) as [cyh|]; cbn [bind];
    [|split; [discriminate | intros (_ & ? & _); discriminate]].
  destruct (Float.mul_int bw W) as [bww|]; cbn [bind];
    [|split; [discriminate | intros [? _]; discriminate]].
  destruct (Float.mul_int bh H) as [bhh|]; cbn [bind];
    [|split; [discriminate | intros (_ & ? & _); discriminate]].
  destruct (Float.div_int bww 2) as [hw|]; cbn [bind];
    [|split; [discriminate | intros [? _]; discriminate]].
  destruct (Float.to_int (Float.sub cxw hw)) as [a1|]; cbn [bind];
    [|split; [discriminate | intros [? _]; discriminate]].
  destruct (Float.div_int bhh 2) as [hh|]; cbn [bind];
    [|split; [discriminate | intros (_ & ? & _); discriminate]].
  destruct (Float.to_int (Float.sub cyh hh)) as [b1|]; cbn [bind];
    [|split; [discriminate | intros (_ & ? & _); discriminate]].
  destruct (Float.to_int (Float.add cxw hw)) as [a2|]; cbn [bind];
    [|split; [discriminate | intros (_ & _ & ? & _); discriminate]].
  destruct (Float.to_int (Float.add cyh hh)) as [b2|]; cbn [bind];
    [|split; [discriminate | intros (_ & _ & _ & ?); discriminate]].
  split.
  - intros E. injection E as -> -> -> ->. repeat split.
  - intros (E1 & E2 & E3 & E4). congruence.
Qed.

(** What [__getitem__] does once the file name, the image size and the
    label text are known. *)
Lemma getitem_unfold
    (w : world) (self : CustomDataset.t) (idx : Z) (fname text : string)
    (W H : Z) :
  getitem_list (CustomDataset.image_filenames self) idx = Ok fname ->
  image_size w (image_path_of self fname) = Some (W, H) ->
  file_text w (label_path_of self fname) = Some text ->
  CustomDataset.__getitem__ w self idx
  = ('(class_id, cx, cy, bw, bh) <-
       CustomDataset.parse_label (Str.strip (readline text)) ;;
     class_id <- Float.to_int class_id ;;
     box <- CustomDataset.pixel_box cx cy bw bh W H ;;
     Ok (with_transform (CustomDataset.transform_ self)
           (Cropped (image_path_of self fname) box), class_id)).
Proof.
  intros Hname Hsize Htext. unfold CustomDataset.__getitem__.
  rewrite Hname. cbn [bind].
  unfold image_path_of, label_path_of in *.
  rewrite Hsize. cbn [bind of_option]. rewrite Htext. cbn [bind of_option].
  destruct (CustomDataset.parse_label (Str.strip (readline text)))
    as [[[[[c cx] cy] bw] bh]|]; cbn [bind]; [|reflexivity].
  destruct (Float.to_int c); cbn [bind]; [|reflexivity].
  destruct (CustomDataset.pixel_box cx cy bw bh W H); cbn [bind];
    [|reflexivity].
  unfold with_transform. destruct (CustomDataset.transform_ self); reflexivity.
Qed.

Lemma pixel_box_half_100 :
  CustomDataset.pixel_box one_half one_half one_half one_half 100 100
  = Ok (25, 25, 75, 75).
Proof. vm_compute. reflexivity. Qed.

(** C2. For an index whose label line parses to class id [c] and the box
    [cx, cy, bw, bh], on an image [W] wide and [H] high, [__getitem__]
    returns exactly when the class id and the four corners
    [x1 = int(cx*W - bw*W/2)], [y1 = int(cy*H - bh*H/2)],
    [x2 = int(cx*W + bw*W/2)], [y2 = int(cy*H + bh*H/2)] are defined, and
    then crops to [(x1, y1, x2, y2)]; for [cx = cy = bw = bh = 0.5] on a
    100 by 100 image the crop is [(25, 25)-(75, 75)]. *)
Theorem getitem_crop_rectangle
    (w : world) (self : CustomDataset.t) (idx : Z) (fname text : string)
    (W H : Z) (c cx cy bw bh : float) :
  getitem_list (CustomDataset.image_filenames self) idx = Ok fname ->
  image_size w (image_path_of self fname) = Some (W, H) ->
  file_text w (label_path_of self fname) = Some text ->
  CustomDataset.parse_label (Str.strip (readline text))
  = Ok (c, cx, cy, bw, bh) ->
  (forall pic k,
      CustomDataset.__getitem__ w self idx = Ok (pic, k)
      <-> exists x1 y1 x2 y2,
          px_low cx bw W = Ok x1 /\ px_low cy bh H = Ok y1
          /\ px_high cx bw W = Ok x2 /\ px_high cy bh H = Ok y2
          /\ Float.to_int c = Ok k
          /\ pic = with_transform (CustomDataset.transform_ self)
                     (Cropped (image_path_of self fname) (x1, y1, x2, y2)))
  /\ (cx = one_half -> cy = one_half -> bw = one_half -> bh = one_half ->
      W = 100 -> H = 100 ->
      forall k, Float.to_int c = Ok k ->
        CustomDataset.__getitem__ w self idx
        = Ok (with_transform (CustomDataset.transform_ self)
                (Cropped (image_path_of self fname) (25, 25, 75, 75)), k)).
Proof.
  intros Hname Hsize Htext Hlabel.
  rewrite (getitem_unfold w self idx fname text W H Hname Hsize Htext).
  rewrite Hlabel. cbn [bind]. split.
  - intros pic k. split.
    + intros E. apply bind_Ok_inv in E as (k' & Hk & E).
      apply bind_Ok_inv in E as ([[[x1 y1] x2] y2] & Hbox & E).
      injection E as <- <-. apply pixel_box_spec in Hbox.
      destruct Hbox as (H1 & H2 & H3 & H4).
      exists x1, y1, x2, y2. repeat split; assumption.
    + intros (x1 & y1 & x2 & y2 & H1 & H2 & H3 & H4 & Hk & ->).
      rewrite Hk. cbn [bind].
      assert (Hbox : CustomDataset.pixel_box cx cy bw bh W H
                     = Ok (x1, y1, x2, y2))
        by (apply pixel_box_spec; repeat split; assumption).
      rewrite Hbox. reflexivity.
  - intros -> -> -> -> -> -> k Hk. rewrite Hk. cbn [bind].
    rewrite pixel_box_half_100. reflexivity.
Qed.

Lemma getitem_crop_rectangle_witness :
  CustomDataset.__getitem__ demo_world
    {| CustomDataset.image_dir := "/data/train/images";
       CustomDataset.label_dir := "/data/train/labels";
       CustomDataset.transform_ := None;
       CustomDataset.image_filenames := ["a.jpg"; "b.png"] |} 0
  = Ok (Cropped "/data/train/images/a.jpg" (25, 25, 75, 75), 3).
Proof.
  refine (proj2 (getitem_crop_rectangle demo_world
            {| CustomDataset.image_dir := "/data/train/images";
               CustomDataset.label_dir := "/data/train/labels";
               CustomDataset.transform_ := None;
               CustomDataset.image_filenames := ["a.jpg"; "b.png"] |}
            0 "a.jpg" ("3 0.5 0.5 0.5 0.5" ++ LF) 100 100
            (S754_finite false 6755399441055744 (-51))
            one_half one_half one_half one_half
            _ _ _ _) _ _ _ _ _ _ 3 _); vm_compute; reflexivity.
Defined.

(** ** Class counts *)

Lemma build_dataset_imagenet (w : world) (is_train : bool) (cfg : config) :
  DATASET (DATA cfg) = "imagenet" ->
  build_dataset w is_train cfg
  = (tr <- build_transform is_train cfg ;;
     Ok (if ZIP_MODE (DATA cfg)
         then CachedImageFolder (DATA_PATH (DATA cfg))
                ((if is_train then "train" else "val") ++ "_map.txt")
                ((if is_train then "train" else "val") ++ ".zip@/") tr
                (if is_train then CACHE_MODE (DATA cfg) else "part")
         else ImageNet (DATA_PATH (DATA cfg))
                (if is_train then "train" else "val") tr, 1000)).
Proof.
  intros E. unfold build_dataset. rewrite E. reflexivity.
Qed.

Lemma build_dataset_custom (w : world) (is_train : bool) (cfg : config) :
  DATASET (DATA cfg) = "custom" ->
  build_dataset w is_train cfg
  = (d <- custom_split w (DATA_PATH (DATA cfg))
            (if is_train then "train" else "valid") custom_transform ;;
     Ok (d, 8)).
Proof.
  intros E. unfold build_dataset. rewrite E. cbn [String.eqb Ascii.eqb].
  simpl. now destruct is_train.
Qed.

Lemma build_dataset_unknown (w : world) (is_train : bool) (cfg : config) :
  ~ known_dataset (DATASET (DATA cfg)) ->
  build_dataset w is_train cfg = Raise NotImplementedError.
Proof.
  intros H. unfold build_dataset, known_dataset in *.
  destruct (String.eqb_spec (DATASET (DATA cfg)) "imagenet"); [tauto|].
  destruct (String.eqb_spec (DATASET (DATA cfg)) "cf100"); [tauto|].
  destruct (String.eqb_spec (DATASET (DATA cfg)) "custom"); [tauto|].
  reflexivity.
Qed.

(** C4. [build_dataset] returns the class count 1000 for ['imagenet'], 100
    for ['cf100'] and 8 for ['custom'], for training and for validation
    alike: whenever it returns, the count is the one of the dataset name,
    and it does return for ['cf100'] always, for ['imagenet'] whenever
    the transform is built, and for ['custom'] whenever the dataset of the
    split is built. *)
Theorem build_dataset_class_counts
    (w : world) (is_train : bool) (cfg : config) :
  (DATASET (DATA cfg) = "imagenet" ->
   (forall d n, build_dataset w is_train cfg = Ok (d, n) -> n = 1000)
   /\ (forall tr, build_transform is_train cfg = Ok tr ->
                  exists d, build_dataset w is_train cfg = Ok (d, 1000)))
  /\ (DATASET (DATA cfg) = "cf100" ->
      exists d, build_dataset w is_train cfg = Ok (d, 100))
  /\ (DATASET (DATA cfg) = "custom" ->
      (forall d n, build_dataset w is_train cfg = Ok (d, n) -> n = 8)
      /\ (forall d,
             custom_split w (DATA_PATH (DATA cfg))
               (if is_train then "train" else "valid") custom_transform
             = Ok d ->
             build_dataset w is_train cfg = Ok (d, 8))).
Proof.
  split; [|split].
  - intros E. rewrite (build_dataset_imagenet w is_train cfg E). split.
    + intros d n H. apply bind_Ok_inv in H as (tr & _ & H). congruence.
    + intros tr ->. cbn [bind]. eauto.
  - intros E. unfold build_dataset. rewrite E. cbn [String.eqb Ascii.eqb].
    simpl. eauto.
  - intros E. rewrite (build_dataset_custom w is_train cfg E). split.
    + intros d n H. apply bind_Ok_inv in H as (d' & _ & H). congruence.
    + intros d ->. reflexivity.
Qed.

Lemma build_dataset_class_counts_witness :
  (exists d, build_dataset demo_world true (demo_config "imagenet" None)
             = Ok (d, 1000))
  /\ (exists d, build_dataset demo_world false (demo_config "imagenet" None)
                = Ok (d, 1000))
  /\ (exists d, build_dataset demo_world true (demo_config "cf100" None)
                = Ok (d, 100))
  /\ (exists d, build_dataset demo_world false (demo_config "cf100" None)
                = Ok (d, 100))
  /\ (exists d, build_dataset demo_world true (demo_config "custom" None)
                = Ok (d, 8))
  /\ (exists d, build_dataset demo_world false (demo_config "custom" None)
                = Ok (d, 8)).
Proof.
  repeat split.
  - refine (proj2 (proj1 (build_dataset_class_counts demo_world true
              (demo_config "imagenet" None)) eq_refl) _ _).
    vm_compute. reflexivity.
  - refine (proj2 (proj1 (build_dataset_class_counts demo_world false
              (demo_config "imagenet" None)) eq_refl) _ _).
    vm_compute. reflexivity.
  - exact (proj1 (proj2 (build_dataset_class_counts demo_world true
              (demo_config "cf100" None))) eq_refl).
  - exact (proj1 (proj2 (build_dataset_class_counts demo_world false
              (demo_config "cf100" None))) eq_refl).
  - eexists.
    refine (proj2 (proj2 (proj2 (build_dataset_class_counts demo_world true
              (demo_config "custom" None))) eq_refl) _ _).
    vm_compute. reflexivity.
  - eexists.
    refine (proj2 (proj2 (proj2 (build_dataset_class_counts demo_world false
              (demo_config "custom" None))) eq_refl) _ _).
    vm_compute. reflexivity.
Defined.

(** ** Unknown names *)

Lemma build_transform_unknown_preset (cfg : config) (p : string) :
  PRESET (AUG cfg) = Some p -> ~ known_preset p ->
  build_transform true cfg = Raise ValueError.
Proof.
  intros E H. unfold build_transform, known_preset in *. rewrite E.
  destruct (String.eqb_spec (Str.strip p) "raug15"); [tauto|].
  destruct (String.eqb_spec (Str.strip p) "weak"); [tauto|].
  destruct (String.eqb_spec (Str.strip p) "none"); [tauto|].
  reflexivity.
Qed.

Lemma build_loader_train_raises (w : world) (cfg : config) (e : exn) :
  build_dataset w true cfg = Raise e -> build_loader w cfg = Raise e.
Proof.
  intros H. unfold build_loader. rewrite H. reflexivity.
Qed.

(** C5, as the code has it.  For a dataset name other than ['imagenet'],
    ['cf100'] and ['custom'], [build_dataset] raises [NotImplementedError]
    whatever the file system holds, and [build_loader] ends with that
    error.  For a preset that is not [None] and whose stripped form is not
    ['raug15'], ['weak'] or ['none'], [build_transform] raises
    [ValueError] when [is_train] is true, and [build_dataset] on
    ['imagenet'] and [build_loader] end with that error. *)
Theorem unknown_names_raise (w : world) (cfg : config) :
  (~ known_dataset (DATASET (DATA cfg)) ->
   (forall is_train,
       build_dataset w is_train cfg = Raise NotImplementedError)
   /\ build_loader w cfg = Raise NotImplementedError)
  /\ (forall p,
         PRESET (AUG cfg) = Some p -> ~ known_preset p ->
         build_transform true cfg = Raise ValueError
         /\ (DATASET (DATA cfg) = "imagenet" ->
             build_dataset w true cfg = Raise ValueError
             /\ build_loader w cfg = Raise ValueError)).
Proof.
  split.
  - intros H. split.
    + intros is_train. now apply build_dataset_unknown.
    + apply build_loader_train_raises. now apply build_dataset_unknown.
  - intros p E H.
    pose proof (build_transform_unknown_preset cfg p E H) as Ht.
    split; [exact Ht|]. intros Ed.
    assert (Hd : build_dataset w true cfg = Raise ValueError).
    { rewrite (build_dataset_imagenet w true cfg Ed), Ht. reflexivity. }
    split; [exact Hd | now apply build_loader_train_raises].
Qed.

Lemma not_known_preset_bogus : ~ known_preset "bogus".
Proof.
  unfold known_preset. vm_compute. intros [H|[H|H]]; discriminate.
Qed.

Lemma not_known_dataset_mnist : ~ known_dataset "mnist".
Proof.
  unfold known_dataset. intros [H|[H|H]]; discriminate.
Qed.

Lemma unknown_names_raise_witness :
  build_loader demo_world (demo_config "mnist" None)
  = Raise NotImplementedError
  /\ build_transform true bogus_preset_config = Raise ValueError
  /\ build_loader demo_world bogus_preset_config = Raise ValueError.
Proof.
  split; [|split].
  - exact (proj2 (proj1 (unknown_names_raise demo_world
                           (demo_config "mnist" None))
                    not_known_dataset_mnist)).
  - exact (proj1 (proj2 (unknown_names_raise demo_world bogus_preset_config)
                    "bogus" eq_refl not_known_preset_bogus)).
  - exact (proj2 (proj2 (proj2 (unknown_names_raise demo_world
                                  bogus_preset_config)
                    "bogus" eq_refl not_known_preset_bogus) eq_refl)).
Defined.

(** C5, as stated, fails: with [is_train] false, [build_transform]
    returns a pipeline for the preset ['bogus'], which is not [None] and
    whose stripped form is none of the three names. *)
Lemma build_transform_eval_unknown_preset_returns :
  PRESET (AUG bogus_preset_config) = Some "bogus"
  /\ ~ known_preset "bogus"
  /\ build_transform false bogus_preset_config
     = Ok (Compose [Resize 256 (Some "bilinear"); CenterCrop 224; ToTensor;
                    Normalize IMAGENET_DEFAULT_MEAN IMAGENET_DEFAULT_STD])
  /\ ~ (forall is_train cfg p,
           PRESET (AUG cfg) = Some p -> ~ known_preset p ->
           raises (build_transform is_train cfg)).
Proof.
  assert (E : build_transform false bogus_preset_config
              = Ok (Compose [Resize 256 (Some "bilinear"); CenterCrop 224;
                             ToTensor;
                             Normalize IMAGENET_DEFAULT_MEAN
                                       IMAGENET_DEFAULT_STD]))
    by (vm_compute; reflexivity).
  split; [reflexivity|]. split; [exact not_known_preset_bogus|].
  split; [exact E|]. intros H.
  destruct (H false bogus_preset_config "bogus" eq_refl
              not_known_preset_bogus) as [e He].
  rewrite E in He. discriminate.
Qed.

(** ** Rounding never produces [nan] *)

Lemma shr_1_nonneg (mrs : shr_record) : nonneg mrs -> nonneg (shr_1 mrs).
Proof.
  destruct mrs as [m r s]. unfold nonneg.
  destruct m as [|p|p]; [|destruct p..]; simpl; lia.
Qed.

Lemma iter_pos_shr_1_nonneg (p : positive) (mrs : shr_record) :
  nonneg mrs -> nonneg (iter_pos shr_1 p mrs).
Proof.
  revert mrs. induction p as [p IH|p IH|]; intros mrs H; simpl.
  - apply IH, IH, shr_1_nonneg, H.
  - apply IH, IH, H.
  - apply shr_1_nonneg, H.
Qed.

Lemma shr_fexp_nonneg (m e : Z) (l : location) :
  0 <= m -> nonneg (fst (shr_fexp Float.prec Float.emax m e l)).
Proof.
  intros Hm. unfold shr_fexp, shr.
  destruct (fexp Float.prec Float.emax (Zdigits2 m + e) - e) as [|p|p];
    cbn [fst].
  - unfold nonneg. now destruct l as [|[]].
  - apply iter_pos_shr_1_nonneg. unfold nonneg. now destruct l as [|[]].
  - unfold nonneg. now destruct l as [|[]].
Qed.

Lemma round_nearest_even_nonneg (m : Z) (l : location) :
  0 <= m -> 0 <= round_nearest_even m l.
Proof.
  intros Hm. destruct l as [|[]]; simpl; try lia.
  destruct (Z.even m); lia.
Qed.

Lemma binary_round_aux_not_nan (sx : bool) (mx ex : Z) (lx : location) :
  0 <= mx ->
  binary_round_aux Float.prec Float.emax sx mx ex lx <> S754_nan.
Proof.
  intros Hm. unfold binary_round_aux.
  pose proof (shr_fexp_nonneg mx ex lx Hm) as H1.
  destruct (shr_fexp Float.prec Float.emax mx ex lx) as [mrs' e'].
  cbn [fst] in H1.
  pose proof (shr_fexp_nonneg
                (round_nearest_even (shr_m mrs') (loc_of_shr_record mrs'))
                e' loc_Exact
                (round_nearest_even_nonneg _ _ H1)) as H2.
  destruct (shr_fexp Float.prec Float.emax
              (round_nearest_even (shr_m mrs') (loc_of_shr_record mrs'))
              e' loc_Exact) as [mrs'' e''].
  cbn [fst] in H2. unfold nonneg in H2.
  destruct (shr_m mrs'') as [|p|p]; [discriminate| |lia].
  destruct (e'' <=? Float.emax - Float.prec); discriminate.
Qed.

Lemma binary_round_not_nan (sx : bool) (mx : positive) (ex : Z) :
  binary_round Float.prec Float.emax sx mx ex <> S754_nan.
Proof.
  unfold binary_round.
  destruct (shl_align mx ex _) as [mz ez].
  apply binary_round_aux_not_nan. lia.
Qed.

(** [float(n)] is a zero or a finite number, or the conversion raises
    [OverflowError]. *)
Lemma of_int_cases (n : Z) :
  Float.of_int n = Raise OverflowError
  \/ (exists s, Float.of_int n = Ok (S754_zero s))
  \/ (exists s m e, Float.of_int n = Ok (S754_finite s m e)).
Proof.
  unfold Float.of_int, binary_normalize.
  destruct n as [|p|p].
  - right. left. now exists false.
  - pose proof (binary_round_not_nan false p 0) as H.
    destruct (binary_round Float.prec Float.emax false p 0);
      [right; left; eauto | now left | congruence | right; right; eauto].
  - pose proof (binary_round_not_nan true p 0) as H.
    destruct (binary_round Float.prec Float.emax true p 0);
      [right; left; eauto | now left | congruence | right; right; eauto].
Qed.

(** [int(x * n)] for a finite [x] raises nothing but [OverflowError]. *)
Lemma to_int_mul_int_finite (s : bool) (m : positive) (e n : Z) (err : exn) :
  (y <- Float.mul_int (S754_finite s m e) n ;; Float.to_int y) = Raise err ->
  err = OverflowError.
Proof.
  unfold Float.mul_int.
  destruct (of_int_cases n) as [E|[[s' E]|(s' & m' & e' & E)]];
    rewrite E; cbn [bind].
  - congruence.
  - discriminate.
  - unfold Float.mul, SFmul.
    pose proof (binary_round_aux_not_nan (xorb s s') (Zpos (m * m'))
                  (e + e') loc_Exact ltac:(lia)) as H.
    destruct (binary_round_aux Float.prec Float.emax (xorb s s')
                (Zpos (m * m')) (e + e') loc_Exact);
      cbn [Float.to_int]; congruence.
Qed.

(** ** The evaluation transform *)

Lemma int_truediv_256_224 :
  Float.int_truediv 256 224 = Ok (S754_finite false 5146971002709138 (-52)).
Proof. vm_compute. reflexivity. Qed.

Lemma build_transform_eval_same (cfg1 cfg2 : config) :
  IMG_SIZE (DATA cfg1) = IMG_SIZE (DATA cfg2) ->
  CROP (TEST cfg1) = CROP (TEST cfg2) ->
  TEST_SIZE (DATA cfg1) = TEST_SIZE (DATA cfg2) ->
  INTERPOLATION (DATA cfg1) = INTERPOLATION (DATA cfg2) ->
  build_transform false cfg1 = build_transform false cfg2.
Proof.
  intros E1 E2 E3 E4. unfold build_transform.
  rewrite E1, E2, E3, E4. reflexivity.
Qed.

Lemma build_transform_eval_only_overflow (cfg : config) (err : exn) :
  build_transform false cfg = Raise err -> err = OverflowError.
Proof.
  unfold build_transform.
  destruct (32 <? IMG_SIZE (DATA cfg)); cbn [bind]; [|discriminate].
  destruct (CROP (TEST cfg)); cbn [bind]; [|discriminate].
  rewrite int_truediv_256_224. cbn [bind].
  intros H.
  apply (to_int_mul_int_finite false 5146971002709138 (-52)
           (TEST_SIZE (DATA cfg))).
  destruct (Float.mul_int (S754_finite false 5146971002709138 (-52))
              (TEST_SIZE (DATA cfg))) as [y|e1]; cbn [bind] in *.
  - destruct (Float.to_int y) as [k|e2]; cbn [bind] in *;
      [discriminate | congruence].
  - congruence.
Qed.

(** C8. With [is_train] false, [build_transform] does not look at
    [AUG.PRESET]: its outcome is fixed by [DATA.IMG_SIZE], [TEST.CROP],
    [DATA.TEST_SIZE] and [DATA.INTERPOLATION], stays the same when the
    preset is replaced by any other, and is never the [ValueError] of an
    unrecognized preset; the same preset makes the training transform
    raise. *)
Theorem eval_transform_never_consults_preset :
  (forall cfg1 cfg2,
      IMG_SIZE (DATA cfg1) = IMG_SIZE (DATA cfg2) ->
      CROP (TEST cfg1) = CROP (TEST cfg2) ->
      TEST_SIZE (DATA cfg1) = TEST_SIZE (DATA cfg2) ->
      INTERPOLATION (DATA cfg1) = INTERPOLATION (DATA cfg2) ->
      build_transform false cfg1 = build_transform false cfg2)
  /\ (forall cfg p,
         build_transform false (set_PRESET cfg p) = build_transform false cfg)
  /\ (forall cfg p,
         PRESET (AUG cfg) = Some p -> ~ known_preset p ->
         build_transform true cfg = Raise ValueError
         /\ build_transform false cfg <> Raise ValueError
         /\ build_transform false cfg
            = build_transform false (set_PRESET cfg None)).
Proof.
  split; [exact build_transform_eval_same|]. split.
  - intros cfg p. now apply build_transform_eval_same.
  - intros cfg p E H. split; [|split].
    + exact (build_transform_unknown_preset cfg p E H).
    + intros Hr. apply build_transform_eval_only_overflow in Hr.
      discriminate.
    + now apply build_transform_eval_same.
Qed.

Lemma eval_transform_never_consults_preset_witness :
  build_transform true bogus_preset_config = Raise ValueError
  /\ build_transform false bogus_preset_config <> Raise ValueError
  /\ build_transform false bogus_preset_config
     = build_transform false (demo_config "imagenet" None).
Proof.
  exact (proj2 (proj2 eval_transform_never_consults_preset)
           bogus_preset_config "bogus" eq_refl not_known_preset_bogus).
Defined.

(** ** The index sets of the samplers *)

Lemma ceil_div_gt (a w k : Z) :
  0 < w -> (k < ceil_div a w <-> k * w < a).
Proof.
  intros Hw. unfold ceil_div.
  pose proof (Z.div_mod (- a) w ltac:(lia)) as Hdiv.
  pose proof (Z.mod_pos_bound (- a) w Hw) as Hmod.
  split; intros H; nia.
Qed.

Lemma arange_Ok (start stop step : Z) :
  step <> 0 ->
  arange start stop step
  = Ok (map (fun i => start + Z.of_nat i * step)
            (seq 0 (Z.to_nat (Z.max 0 (ceil_div (stop - start) step))))).
Proof.
  intros H. unfold arange. apply Z.eqb_neq in H. now rewrite H.
Qed.

Lemma arange_In (start stop step : Z) (l : list Z) (i : Z) :
  0 < step -> arange start stop step = Ok l ->
  (In i l <-> start <= i < stop /\ (i - start) mod step = 0).
Proof.
  intros Hstep E. rewrite arange_Ok in E by lia. injection E as <-.
  rewrite in_map_iff. split.
  - intros (k & <- & Hk). apply in_seq in Hk.
    assert (Hlt : Z.of_nat k < ceil_div (stop - start) step) by lia.
    apply ceil_div_gt in Hlt; [|exact Hstep]. split; [nia|].
    replace (start + Z.of_nat k * step - start) with (Z.of_nat k * step)
      by ring.
    apply Z.mod_mul. lia.
  - intros [Hr Hm]. apply Z.mod_divide in Hm; [|lia].
    destruct Hm as [q Hq]. assert (0 <= q) by nia.
    exists (Z.to_nat q). split; [rewrite Z2Nat.id by lia; lia|].
    apply in_seq. split; [lia|].
    assert (Hlt : q < ceil_div (stop - start) step)
      by (apply ceil_div_gt; [exact Hstep | lia]).
    lia.
Qed.

Lemma NoDup_map_injective {A B : Type} (f : A -> B) (l : list A) :
  (forall a b, f a = f b -> a = b) -> NoDup l -> NoDup (map f l).
Proof.
  intros Hinj Hl. induction Hl as [|a l Ha Hl IH]; simpl; constructor.
  - intros Hin. apply in_map_iff in Hin as (b & Hb & Hin).
    apply Hinj in Hb. now subst.
  - exact IH.
Qed.

Lemma arange_NoDup (start stop step : Z) (l : list Z) :
  0 < step -> arange start stop step = Ok l -> NoDup l.
Proof.
  intros Hstep E. rewrite arange_Ok in E by lia. injection E as <-.
  apply NoDup_map_injective; [|apply seq_NoDup].
  intros a b Hab. nia.
Qed.

(** For a rank below the world size, the index set is the set of
    indices below [n] whose remainder by the world size is the rank. *)
Lemma arange_rank_In (rank n size : Z) (l : list Z) (i : Z) :
  0 <= rank < size -> arange rank n size = Ok l ->
  (In i l <-> 0 <= i < n /\ i mod size = rank).
Proof.
  intros Hr E. rewrite (arange_In rank n size l i ltac:(lia) E).
  split.
  - intros [Hi Hm]. split; [lia|].
    apply Z.mod_divide in Hm; [|lia]. destruct Hm as [q Hq].
    replace i with (rank + q * size) by lia.
    rewrite Z.mod_add by lia. apply Z.mod_small. lia.
  - intros [Hi Hm].
    pose proof (Z.div_mod i size ltac:(lia)) as Hdiv.
    assert (0 <= i / size) by (apply Z.div_pos; lia).
    split; [nia|].
    replace (i - rank) with ((i / size) * size) by lia.
    apply Z.mod_mul. lia.
Qed.

Lemma build_loader_samplers (w : world) (cfg : config) (out : loaders) :
  build_loader w cfg = Ok out ->
  (exists l,
      arange (get_rank w) (len w (dataset_val out)) (get_world_size w) = Ok l
      /\ loader_sampler (data_loader_val out) = SubsetRandomSampler l)
  /\ (ZIP_MODE (DATA cfg) = true -> CACHE_MODE (DATA cfg) = "part" ->
      exists l,
        arange (get_rank w) (len w (dataset_train out)) (get_world_size w)
        = Ok l
        /\ loader_sampler (data_loader_train out) = SubsetRandomSampler l).
Proof.
  unfold build_loader. intros H.
  apply bind_Ok_inv in H as ([dtrain nb] & _ & H).
  apply bind_Ok_inv in H as ([dval nb'] & _ & H).
  apply bind_Ok_inv in H as (strain & Hs & H).
  apply bind_Ok_inv in H as (ival & Hv & H).
  injection H as <-. cbn. split; [eauto|].
  intros Hz Hc. cbn in Hs. rewrite Hz, Hc in Hs. cbn in Hs.
  apply bind_Ok_inv in Hs as (itrain & Ht & Hs). injection Hs as <-. eauto.
Qed.

(** C7. For a dataset length [n] and a world size [size > 0], the index
    lists [arange(rank, n, size)] of the ranks [0 .. size-1] hold no index
    twice, are pairwise disjoint, and together hold exactly the indices
    [0 .. n-1]; these lists are the indices of the validation sampler of
    [build_loader] and, in zip mode with the ['part'] cache, of its
    training sampler. *)
Theorem arange_ranks_partition :
  (forall n size,
      0 < size ->
      (forall rank, 0 <= rank < size ->
          exists l, arange rank n size = Ok l /\ NoDup l
                    /\ forall i, In i l -> 0 <= i < n)
      /\ (forall rank1 rank2 l1 l2,
             0 <= rank1 < size -> 0 <= rank2 < size -> rank1 <> rank2 ->
             arange rank1 n size = Ok l1 -> arange rank2 n size = Ok l2 ->
             forall i, In i l1 -> ~ In i l2)
      /\ (forall i,
             0 <= i < n
             <-> exists rank l,
                 0 <= rank < size /\ arange rank n size = Ok l /\ In i l))
  /\ (forall w cfg out,
         build_loader w cfg = Ok out ->
         (exists l,
             arange (get_rank w) (len w (dataset_val out)) (get_world_size w)
             = Ok l
             /\ loader_sampler (data_loader_val out) = SubsetRandomSampler l)
         /\ (ZIP_MODE (DATA cfg) = true -> CACHE_MODE (DATA cfg) = "part" ->
             exists l,
               arange (get_rank w) (len w (dataset_train out))
                      (get_world_size w) = Ok l
               /\ loader_sampler (data_loader_train out)
                  = SubsetRandomSampler l)).
Proof.
  split; [|exact build_loader_samplers].
  intros n size Hsize. split; [|split].
  - intros rank Hr. eexists. split; [apply arange_Ok; lia|].
    split.
    + apply (arange_NoDup rank n size); [lia | apply arange_Ok; lia].
    + intros i Hi.
      apply (arange_rank_In rank n size _ i Hr) in Hi;
        [tauto | apply arange_Ok; lia].
  - intros rank1 rank2 l1 l2 H1 H2 Hne E1 E2 i Hi1 Hi2.
    apply (arange_rank_In rank1 n size l1 i H1 E1) in Hi1.
    apply (arange_rank_In rank2 n size l2 i H2 E2) in Hi2. lia.
  - intros i. split.
    + intros Hi. exists (i mod size). eexists.
      pose proof (Z.mod_pos_bound i size Hsize) as Hb.
      split; [exact Hb|]. split; [apply arange_Ok; lia|].
      apply (arange_rank_In (i mod size) n size _ i Hb);
        [apply arange_Ok; lia | tauto].
    + intros (rank & l & Hr & E & Hi).
      apply (arange_rank_In rank n size l i Hr E) in Hi. tauto.
Qed.

Lemma arange_ranks_partition_witness :
  arange 0 10 4 = Ok [0; 4; 8] /\ arange 1 10 4 = Ok [1; 5; 9]
  /\ arange 2 10 4 = Ok [2; 6] /\ arange 3 10 4 = Ok [3; 7]
  /\ (forall i, 0 <= i < 10
                <-> exists rank l,
                    0 <= rank < 4 /\ arange rank 10 4 = Ok l /\ In i l).
Proof.
  repeat (split; [reflexivity|]).
  exact (proj2 (proj2 (proj1 arange_ranks_partition 10 4 eq_refl))).
Defined.

(** ** The first line of the label file *)

Lemma rstrip_app_LF (s : string) : Str.rstrip (s ++ LF) = Str.rstrip s.
Proof.
  induction s as [|c s IH]; [reflexivity|].
  cbn [append Str.rstrip]. now rewrite IH.
Qed.

Lemma lstrip_app_LF (s : string) :
  Str.lstrip (s ++ LF)
  = if Str.is_empty (Str.lstrip s) then EmptyString else Str.lstrip s ++ LF.
Proof.
  induction s as [|c s IH]; [reflexivity|].
  cbn [append Str.lstrip]. destruct (Str.isspace c); [exact IH | reflexivity].
Qed.

Lemma strip_app_LF (s : string) : Str.strip (s ++ LF) = Str.strip s.
Proof.
  unfold Str.strip. rewrite lstrip_app_LF.
  destruct (Str.lstrip s) as [|c r] eqn:E; [reflexivity|].
  cbn [Str.is_empty]. apply rstrip_app_LF.
Qed.

Lemma readline_first_line (text : string) :
  readline text = first_line text \/ readline text = first_line text ++ LF.
Proof.
  induction text as [|c rest IH]; [now left|].
  cbn [readline first_line].
  destruct (Ascii.eqb c "010" || Ascii.eqb c "013"); [now right|].
  destruct IH as [->| ->]; [now left | now right].
Qed.

Lemma strip_readline (text : string) :
  Str.strip (readline text) = Str.strip (first_line text).
Proof.
  destruct (readline_first_line text) as [->| ->];
    [reflexivity | apply strip_app_LF].
Qed.

(** ** [split] and the fields of a line *)

Lemma append_assoc (a b c : string) : (a ++ b) ++ c = a ++ b ++ c.
Proof.
  induction a as [|x a IH]; simpl; [reflexivity | now rewrite IH].
Qed.

Lemma append_nil_r (a : string) : a ++ EmptyString = a.
Proof.
  induction a as [|x a IH]; simpl; [reflexivity | now rewrite IH].
Qed.

Lemma no_space_snoc (cur : string) (c : ascii) :
  no_space cur = true -> Str.isspace c = false ->
  no_space (cur ++ String c EmptyString) = true.
Proof.
  intros Hcur Hc. induction cur as [|x cur IH]; simpl in *.
  - now rewrite Hc.
  - apply andb_true_iff in Hcur as [Hx Hcur]. rewrite Hx. now apply IH.
Qed.

Lemma is_empty_true (s : string) : Str.is_empty s = true <-> s = EmptyString.
Proof. destruct s; simpl; split; congruence. Qed.

Lemma is_empty_false (s : string) : Str.is_empty s = false <-> s <> EmptyString.
Proof. destruct s; simpl; split; congruence. Qed.

Lemma blank_at_boundary (s : string) : blank s = true -> at_boundary s.
Proof.
  destruct s as [|c s]; simpl; [trivial|].
  intros H. now apply andb_true_iff in H.
Qed.

Lemma separator_at_boundary (s rest : string) :
  is_separator s -> at_boundary (s ++ rest).
Proof.
  intros [Hne Hb]. destruct s as [|c s]; [congruence|].
  simpl in *. now apply andb_true_iff in Hb.
Qed.

Lemma tokens_space_cons (c : ascii) (s : string) (l : list string) :
  Str.isspace c = true -> tokens s l -> tokens (String c s) l.
Proof.
  intros Hc H. destruct H as [b Hb|b f rest fs Hb Hf Hbd Hrest].
  - apply tokens_nil. simpl. now rewrite Hc.
  - apply (tokens_cons (String c b) f rest fs); try assumption.
    simpl. now rewrite Hc.
Qed.

(** What [split] returns are the maximal whitespace-free runs. *)
Lemma split_from_tokens (s cur : string) :
  no_space cur = true -> tokens (cur ++ s) (Str.split_from cur s).
Proof.
  revert cur. induction s as [|c s IH]; intros cur Hcur.
  - cbn [Str.split_from]. destruct cur as [|x cur].
    + apply tokens_nil. reflexivity.
    + cbn [Str.is_empty].
      apply (tokens_cons EmptyString (String x cur) EmptyString []);
        [reflexivity | split; [discriminate | exact Hcur] | exact I
        | apply tokens_nil; reflexivity].
  - cbn [Str.split_from]. destruct (Str.isspace c) eqn:Hc.
    + pose proof (tokens_space_cons c s _ Hc (IH EmptyString eq_refl)) as Hrest.
      destruct cur as [|x cur]; cbn [Str.is_empty].
      * exact Hrest.
      * apply (tokens_cons EmptyString (String x cur) (String c s));
          [reflexivity | split; [discriminate | exact Hcur]
          | exact Hc | exact Hrest].
    + replace (cur ++ String c s) with ((cur ++ String c EmptyString) ++ s)
        by (now rewrite append_assoc).
      apply IH. now apply no_space_snoc.
Qed.

Lemma split_tokens (s : string) : tokens s (Str.split s).
Proof. exact (split_from_tokens s EmptyString eq_refl). Qed.

Lemma split_from_blank_app (b s : string) :
  blank b = true -> Str.split_from EmptyString (b ++ s) = Str.split_from EmptyString s.
Proof.
  induction b as [|c b IH]; intros Hb; [reflexivity|].
  simpl in Hb. apply andb_true_iff in Hb as [Hc Hb].
  cbn [append Str.split_from]. rewrite Hc. cbn [Str.is_empty]. now apply IH.
Qed.

Lemma split_from_field (f cur rest : string) :
  no_space f = true -> at_boundary rest -> cur ++ f <> EmptyString ->
  Str.split_from cur (f ++ rest) = (cur ++ f) :: Str.split_from EmptyString rest.
Proof.
  revert cur. induction f as [|d f IH]; intros cur Hf Hrest Hne.
  - rewrite append_nil_r in *. cbn [append].
    apply is_empty_false in Hne.
    destruct rest as [|c r]; cbn [Str.split_from]; rewrite Hne.
    + reflexivity.
    + simpl in Hrest. rewrite Hrest. reflexivity.
  - simpl in Hf. apply andb_true_iff in Hf as [Hd Hf].
    apply negb_true_iff in Hd.
    cbn [append Str.split_from]. rewrite Hd.
    rewrite IH; [ | exact Hf | exact Hrest | ].
    + now rewrite append_assoc.
    + rewrite append_assoc. destruct cur; discriminate.
Qed.

(** Conversely, the maximal whitespace-free runs are what [split]
    returns. *)
Lemma tokens_split (s : string) (l : list string) :
  tokens s l -> Str.split s = l.
Proof.
  unfold Str.split. induction 1 as [b Hb|b f rest fs Hb [Hne Hf] Hbd _ IH].
  - rewrite <- (append_nil_r b), split_from_blank_app by exact Hb.
    reflexivity.
  - rewrite split_from_blank_app by exact Hb.
    rewrite split_from_field; [|exact Hf | exact Hbd | exact Hne].
    cbn [append]. now rewrite IH.
Qed.

Lemma split_from_lstrip (s : string) :
  Str.split_from EmptyString (Str.lstrip s) = Str.split_from EmptyString s.
Proof.
  induction s as [|c s IH]; [reflexivity|].
  cbn [Str.lstrip Str.split_from].
  destruct (Str.isspace c) eqn:Hc; [exact IH|].
  cbn [Str.split_from]. now rewrite Hc.
Qed.

Lemma split_from_rstrip (s cur : string) :
  Str.split_from cur (Str.rstrip s) = Str.split_from cur s.
Proof.
  revert cur. induction s as [|c s IH]; intros cur; [reflexivity|].
  cbn [Str.rstrip].
  destruct (Str.isspace c) eqn:Hc; cbn [andb].
  - destruct (Str.is_empty (Str.rstrip s)) eqn:Er.
    + apply is_empty_true in Er. cbn [Str.split_from]. rewrite Hc.
      rewrite <- (IH EmptyString), Er. cbn [Str.split_from Str.is_empty].
      now destruct (Str.is_empty cur).
    + cbn [Str.split_from]. rewrite Hc, !IH. reflexivity.
  - cbn [Str.split_from]. rewrite Hc. apply IH.
Qed.

Lemma split_strip (s : string) : Str.split (Str.strip s) = Str.split s.
Proof.
  unfold Str.split, Str.strip.
  now rewrite split_from_rstrip, split_from_lstrip.
Qed.

(** The explicit form of a line of five fields. *)
Lemma tokens_five (line f0 f1 f2 f3 f4 : string) :
  tokens line [f0; f1; f2; f3; f4]
  <-> exists s0 s1 s2 s3 s4 s5,
      line = s0 ++ f0 ++ s1 ++ f1 ++ s2 ++ f2 ++ s3 ++ f3 ++ s4 ++ f4 ++ s5
      /\ blank s0 = true /\ blank s5 = true
      /\ is_separator s1 /\ is_separator s2
      /\ is_separator s3 /\ is_separator s4
      /\ is_field f0 /\ is_field f1 /\ is_field f2
      /\ is_field f3 /\ is_field f4.
Proof.
  assert (Hsep : forall b f rest,
             blank b = true -> is_field f -> at_boundary (b ++ f ++ rest) ->
             is_separator b).
  { intros b f rest Hb [Hne Hf] Hbd. split; [|exact Hb].
    intros ->. destruct f as [|c f]; [congruence|].
    simpl in Hbd, Hf. rewrite Hbd in Hf. discriminate. }
  split.
  - intros H.
    inversion H as [|s0 g0 r0 fs0 Hb0 Hf0 Hbd0 H0]; subst; clear H.
    inversion H0 as [|s1 g1 r1 fs1 Hb1 Hf1 Hbd1 H1]; subst; clear H0.
    inversion H1 as [|s2 g2 r2 fs2 Hb2 Hf2 Hbd2 H2]; subst; clear H1.
    inversion H2 as [|s3 g3 r3 fs3 Hb3 Hf3 Hbd3 H3]; subst; clear H2.
    inversion H3 as [|s4 g4 r4 fs4 Hb4 Hf4 Hbd4 H4]; subst; clear H3.
    inversion H4 as [s5 Hb5|]; subst; clear H4.
    exists s0, s1, s2, s3, s4, r4.
    split; [reflexivity|]. split; [exact Hb0|]. split; [exact Hb5|].
    split; [exact (Hsep _ _ _ Hb1 Hf1 Hbd0)|].
    split; [exact (Hsep _ _ _ Hb2 Hf2 Hbd1)|].
    split; [exact (Hsep _ _ _ Hb3 Hf3 Hbd2)|].
    split; [exact (Hsep _ _ _ Hb4 Hf4 Hbd3)|].
    repeat (split; [assumption|]). assumption.
  - intros (s0 & s1 & s2 & s3 & s4 & s5 & -> & Hb0 & Hb5
            & Hs1 & Hs2 & Hs3 & Hs4 & Hf0 & Hf1 & Hf2 & Hf3 & Hf4).
    apply tokens_cons;
      [exact Hb0 | exact Hf0 | now apply separator_at_boundary|].
    apply tokens_cons;
      [apply Hs1 | exact Hf1 | now apply separator_at_boundary|].
    apply tokens_cons;
      [apply Hs2 | exact Hf2 | now apply separator_at_boundary|].
    apply tokens_cons;
      [apply Hs3 | exact Hf3 | now apply separator_at_boundary|].
    apply tokens_cons;
      [apply Hs4 | exact Hf4 | now apply blank_at_boundary|].
    now apply tokens_nil.
Qed.

(** ** Missing and malformed label files *)

Lemma of_string_raise (s : string) (e : exn) :
  Float.of_string s = Raise e -> e = ValueError.
Proof.
  unfold Float.of_string.
  destruct (Float.drop_underscores None _) as [s1|]; [|congruence].
  destruct (Float.parse_decimal _) as [[[neg M] E]|]; [discriminate|].
  destruct (Float.parse_inf_or_nan _); simpl; congruence.
Qed.

Lemma parse_label_raise (line : string) (e : exn) :
  CustomDataset.parse_label line = Raise e -> e = ValueError.
Proof.
  unfold CustomDataset.parse_label.
  destruct (Str.split line) as [|f0 [|f1 [|f2 [|f3 [|f4 [|f5 l]]]]]];
    try congruence.
  repeat match goal with
         | |- context [bind (Float.of_string ?f) _] =>
             let E := fresh "E" in
             destruct (Float.of_string f) eqn:E; cbn [bind];
             [|apply of_string_raise in E; congruence]
         end.
  discriminate.
Qed.

Lemma parse_label_Ok (line : string) :
  (exists r, CustomDataset.parse_label line = Ok r)
  <-> exists f0 f1 f2 f3 f4,
      Str.split line = [f0; f1; f2; f3; f4]
      /\ numeric f0 /\ numeric f1 /\ numeric f2 /\ numeric f3 /\ numeric f4.
Proof.
  unfold CustomDataset.parse_label, numeric. split.
  - intros [r H].
    destruct (Str.split line) as [|f0 [|f1 [|f2 [|f3 [|f4 [|f5 l]]]]]];
      try discriminate.
    exists f0, f1, f2, f3, f4. split; [reflexivity|].
    destruct (Float.of_string f0); cbn [bind] in H; [|discriminate].
    destruct (Float.of_string f1); cbn [bind] in H; [|discriminate].
    destruct (Float.of_string f2); cbn [bind] in H; [|discriminate].
    destruct (Float.of_string f3); cbn [bind] in H; [|discriminate].
    destruct (Float.of_string f4); cbn [bind] in H; [|discriminate].
    repeat split; eauto.
  - intros (f0 & f1 & f2 & f3 & f4 & -> & [x0 ->] & [x1 ->] & [x2 ->]
            & [x3 ->] & [x4 ->]).
    cbn [bind]. eauto.
Qed.

(** The label statement succeeds exactly on the lines of five numeric
    fields separated by whitespace. *)
Lemma parse_label_five (line : string) :
  (exists r, CustomDataset.parse_label (Str.strip line) = Ok r)
  <-> five_whitespace_separated line.
Proof.
  rewrite parse_label_Ok. unfold five_whitespace_separated.
  split.
  - intros (f0 & f1 & f2 & f3 & f4 & Hs & Hn).
    rewrite split_strip in Hs.
    pose proof (split_tokens line) as Ht. rewrite Hs in Ht.
    apply tokens_five in Ht
      as (s0 & s1 & s2 & s3 & s4 & s5 & E & Hrest).
    exists f0, f1, f2, f3, f4, s0, s1, s2, s3, s4, s5.
    split; [exact E|]. tauto.
  - intros (f0 & f1 & f2 & f3 & f4 & s0 & s1 & s2 & s3 & s4 & s5 & E & H).
    exists f0, f1, f2, f3, f4. split; [|tauto].
    rewrite split_strip. apply tokens_split, tokens_five.
    exists s0, s1, s2, s3, s4, s5. split; [exact E|]. tauto.
Qed.

(** C6, as the code has it.  For an index whose paired label file is
    missing, [__getitem__] raises ([OSError] once the image is open); for
    an index whose first label line is not five numeric fields separated
    by runs of whitespace, leading and trailing whitespace aside, it
    raises ([ValueError] once the image is open).  The error is the
    outcome of [__getitem__]: nothing is returned in its place. *)
Theorem getitem_label_errors
    (w : world) (self : CustomDataset.t) (idx : Z) (fname : string) :
  getitem_list (CustomDataset.image_filenames self) idx = Ok fname ->
  (file_text w (label_path_of self fname) = None ->
   raises (CustomDataset.__getitem__ w self idx)
   /\ forall size,
       image_size w (image_path_of self fname) = Some size ->
       CustomDataset.__getitem__ w self idx = Raise OSError)
  /\ (forall text,
         file_text w (label_path_of self fname) = Some text ->
         ~ five_whitespace_separated (first_line text) ->
         raises (CustomDataset.__getitem__ w self idx)
         /\ forall size,
             image_size w (image_path_of self fname) = Some size ->
             CustomDataset.__getitem__ w self idx = Raise ValueError).
Proof.
  intros Hname. unfold CustomDataset.__getitem__, raises.
  rewrite Hname. cbn [bind]. unfold image_path_of, label_path_of. split.
  - intros Hnone.
    destruct (image_size w _) as [[W H]|]; cbn [bind of_option].
    + rewrite Hnone. cbn [bind of_option]. split; [eauto | reflexivity].
    + split; [eauto | discriminate].
  - intros text Htext Hbad.
    assert (Hlabel : CustomDataset.parse_label (Str.strip (readline text))
                     = Raise ValueError).
    { destruct (CustomDataset.parse_label (Str.strip (readline text)))
        as [r|e] eqn:E.
      - exfalso. apply Hbad. apply parse_label_five.
        exists r. now rewrite <- strip_readline.
      - apply parse_label_raise in E. now subst. }
    destruct (image_size w _) as [[W H]|]; cbn [bind of_option].
    + rewrite Htext. cbn [bind of_option]. rewrite Hlabel. cbn [bind].
      split; [eauto | reflexivity].
    + split; [eauto | discriminate].
Qed.

Lemma four_fields_not_five : ~ five_whitespace_separated "7 0.1 0.1 0.1".
Proof.
  intros H. apply parse_label_five in H as [r H].
  vm_compute in H. discriminate.
Qed.

Lemma getitem_label_errors_witness :
  CustomDataset.__getitem__ demo_world demo_train 1 = Raise OSError
  /\ CustomDataset.__getitem__
       (set_file_text demo_world "/data/train/labels/a.txt"
          ("7 0.1 0.1 0.1" ++ LF ++ "3 0.5 0.5 0.5 0.5" ++ LF))
       demo_train 0
     = Raise ValueError.
Proof.
  split.
  - exact (proj2 (proj1 (getitem_label_errors demo_world demo_train 1
                           "b.png" eq_refl) eq_refl)
             (640, 480) eq_refl).
  - exact (proj2 (proj2 (getitem_label_errors
                           (set_file_text demo_world
                              "/data/train/labels/a.txt"
                              ("7 0.1 0.1 0.1" ++ LF
                               ++ "3 0.5 0.5 0.5 0.5" ++ LF))
                           demo_train 0 "a.jpg" eq_refl)
                    ("7 0.1 0.1 0.1" ++ LF ++ "3 0.5 0.5 0.5 0.5" ++ LF)
                    eq_refl four_fields_not_five)
             (100, 100) eq_refl).
Defined.

Lemma in_append_blank (a b : string) :
  In " "%char (list_ascii_of_string (a ++ " " ++ b)).
Proof.
  induction a as [|c a IH]; simpl; [now left | now right].
Qed.

(** C6, as stated, fails: a label line whose five fields are separated
    by tabs holds no blank at all, so it is not five space-separated
    fields, and [__getitem__] returns the crop and the class id. *)
Lemma getitem_accepts_tab_separated_label :
  file_text tab_world (label_path_of demo_train "a.jpg") = Some tab_line
  /\ first_line tab_line = tab_line
  /\ ~ five_space_separated (first_line tab_line)
  /\ CustomDataset.__getitem__ tab_world demo_train 0
     = Ok (Cropped "/data/train/images/a.jpg" (25, 25, 75, 75), 0)
  /\ ~ raises (CustomDataset.__getitem__ tab_world demo_train 0).
Proof.
  assert (E : CustomDataset.__getitem__ tab_world demo_train 0
              = Ok (Cropped "/data/train/images/a.jpg" (25, 25, 75, 75), 0))
    by (vm_compute; reflexivity).
  split; [reflexivity|]. split; [reflexivity|]. split; [|split].
  - intros (f0 & f1 & f2 & f3 & f4 & Hline & _).
    pose proof (in_append_blank f0 (f1 ++ " " ++ f2 ++ " " ++ f3 ++ " " ++ f4))
      as Hin.
    rewrite <- Hline in Hin. vm_compute in Hin.
    repeat (destruct Hin as [Hin|Hin]; [discriminate|]). exact Hin.
  - exact E.
  - intros [e He]. rewrite E in He. discriminate.
Qed.

(** * Further properties of the code *)

(** ** [build_dataset] on the custom dataset, in general *)

(** X1. When the split directory lists both [images] and [labels],
    [build_dataset] on ['custom'] returns class count 8 and a dataset
    whose image directory is whichever of the two is listed second and
    whose label directory is the one listed first; its transform is the
    fixed resize-to-96 pipeline and its files are the image files of the
    directory it took as image directory. *)
Theorem build_dataset_custom_by_listing_order
    (w : world) (is_train : bool) (cfg : config) (first second : string)
    (pre mid post entries : list string) :
  DATASET (DATA cfg) = "custom" ->
  listdir w (Path.join (DATA_PATH (DATA cfg)) (split_name is_train))
  = Some (pre ++ first :: mid ++ second :: post)%list ->
  (forall e, In e (pre ++ mid ++ post) -> e <> "images" /\ e <> "labels") ->
  (first = "images" /\ second = "labels"
   \/ first = "labels" /\ second = "images") ->
  listdir w (Path.join (Path.join (DATA_PATH (DATA cfg))
                          (split_name is_train)) second) = Some entries ->
  build_dataset w is_train cfg
  = Ok (Custom
          {| CustomDataset.image_dir :=
               Path.join (Path.join (DATA_PATH (DATA cfg))
                            (split_name is_train)) second;
             CustomDataset.label_dir :=
               Path.join (Path.join (DATA_PATH (DATA cfg))
                            (split_name is_train)) first;
             CustomDataset.transform_ := Some custom_transform;
             CustomDataset.image_filenames :=
               filter CustomDataset.is_image_name entries |}, 8).
Proof.
  intros Hname Hlist Hother Hnames Hsecond.
  rewrite (build_dataset_custom w is_train cfg Hname).
  fold (split_name is_train).
  rewrite (custom_split_by_listing_order w (DATA_PATH (DATA cfg))
             (split_name is_train) first second pre mid post entries
             custom_transform Hlist Hother Hnames Hsecond).
  reflexivity.
Qed.

Lemma build_dataset_custom_by_listing_order_witness :
  build_dataset demo_world false (demo_config "custom" None)
  = Ok (Custom
          {| CustomDataset.image_dir := "/data/valid/images";
             CustomDataset.label_dir := "/data/valid/labels";
             CustomDataset.transform_ := Some custom_transform;
             CustomDataset.image_filenames := ["v.jpg"] |}, 8).
Proof.
  refine (build_dataset_custom_by_listing_order demo_world false
            (demo_config "custom" None) "labels" "images" [] [] []
            ["v.jpg"] eq_refl eq_refl _ _ eq_refl).
  - intros e [].
  - right. split; reflexivity.
Defined.

Lemma scan_dirs_length (path : string) (entries : list string) :
  List.length (scan_dirs path entries)
  = (count_occ string_dec entries "images"
     + count_occ string_dec entries "labels")%nat.
Proof.
  induction entries as [|e rest IH]; [reflexivity|].
  cbn [scan_dirs count_occ]. rewrite !length_app, IH.
  destruct (String.eqb_spec e "images") as [Hi|Hi];
    destruct (String.eqb_spec e "labels") as [Hl|Hl];
    destruct (string_dec e "images") as [Di|Di];
    destruct (string_dec e "labels") as [Dl|Dl];
    try congruence; simpl; lia.
Qed.

Lemma getitem_list_short {A : Type} (l : list A) (i : Z) :
  Z.of_nat (List.length l) <= i -> getitem_list l i = Raise IndexError.
Proof.
  intros H. unfold getitem_list.
  destruct (Z.ltb_spec i (Z.of_nat (List.length l))); [lia|].
  rewrite andb_false_r.
  destruct (Z.ltb_spec i 0); [lia|]. now rewrite andb_false_r.
Qed.

(** X2. On ['custom'], a split directory that cannot be listed makes
    [build_dataset] raise [OSError], and a split directory whose listing
    (of distinct names) lacks [images] or lacks [labels] makes it raise
    [IndexError]; no dataset is returned in either case. *)
Theorem build_dataset_custom_missing_directory
    (w : world) (is_train : bool) (cfg : config) :
  DATASET (DATA cfg) = "custom" ->
  (listdir w (Path.join (DATA_PATH (DATA cfg)) (split_name is_train)) = None ->
   build_dataset w is_train cfg = Raise OSError)
  /\ (forall listing,
         listdir w (Path.join (DATA_PATH (DATA cfg)) (split_name is_train))
         = Some listing ->
         NoDup listing ->
         ~ In "images" listing \/ ~ In "labels" listing ->
         build_dataset w is_train cfg = Raise IndexError).
Proof.
  intros Hname. rewrite (build_dataset_custom w is_train cfg Hname).
  fold (split_name is_train). unfold custom_split. split.
  - intros ->. reflexivity.
  - intros listing -> Hnodup Hmiss. cbn [of_option bind].
    rewrite getitem_list_short; [reflexivity|].
    rewrite scan_dirs_length.
    pose proof (proj1 (NoDup_count_occ string_dec listing) Hnodup "images").
    pose proof (proj1 (NoDup_count_occ string_dec listing) Hnodup "labels").
    destruct Hmiss as [Hm|Hm];
      apply (count_occ_not_In string_dec) in Hm; lia.
Qed.

Lemma build_dataset_custom_missing_directory_witness :
  build_dataset no_files true (demo_config "custom" None) = Raise OSError
  /\ build_dataset
       (set_listdir demo_world "/data/train" ["images"; "cache"]) true
       (demo_config "custom" None)
     = Raise IndexError.
Proof.
  split.
  - exact (proj1 (build_dataset_custom_missing_directory no_files true
                    (demo_config "custom" None) eq_refl) eq_refl).
  - refine (proj2 (build_dataset_custom_missing_directory
                     (set_listdir demo_world "/data/train"
                        ["images"; "cache"]) true
                     (demo_config "custom" None) eq_refl)
              ["images"; "cache"] eq_refl _ _).
    + repeat constructor; simpl; intuition discriminate.
    + right. simpl. intuition discriminate.
Defined.

(** ** Indices and errors of [__getitem__] *)

Lemma getitem_list_in_range {A : Type} (l : list A) (i : Z) :
  0 <= i < Z.of_nat (List.length l) ->
  exists a, getitem_list l i = Ok a /\ nth_error l (Z.to_nat i) = Some a.
Proof.
  intros H. unfold getitem_list.
  destruct (Z.leb_spec 0 i); [|lia].
  destruct (Z.ltb_spec i (Z.of_nat (List.length l))); [|lia].
  cbn [andb].
  destruct (nth_error l (Z.to_nat i)) as [a|] eqn:E;
    [exists a; split; reflexivity|].
  apply nth_error_None in E. lia.
Qed.

Lemma getitem_list_negative {A : Type} (l : list A) (i : Z) :
  0 <= i < Z.of_nat (List.length l) ->
  getitem_list l (i - Z.of_nat (List.length l)) = getitem_list l i.
Proof.
  intros H. destruct (getitem_list_in_range l i H) as (a & -> & Hn).
  unfold getitem_list.
  destruct (Z.leb_spec 0 (i - Z.of_nat (List.length l))); [lia|].
  cbn [andb].
  destruct (Z.leb_spec (- Z.of_nat (List.length l))
              (i - Z.of_nat (List.length l))); [|lia].
  destruct (Z.ltb_spec (i - Z.of_nat (List.length l)) 0); [|lia].
  cbn [andb].
  replace (Z.of_nat (List.length l) + (i - Z.of_nat (List.length l)))
    with i by lia.
  now rewrite Hn.
Qed.

Lemma getitem_list_cases {A : Type} (l : list A) (i : Z) :
  (- Z.of_nat (List.length l) <= i < Z.of_nat (List.length l)
   /\ exists a, getitem_list l i = Ok a /\ In a l)
  \/ ((i < - Z.of_nat (List.length l) \/ Z.of_nat (List.length l) <= i)
      /\ getitem_list l i = Raise IndexError).
Proof.
  destruct (Z.le_gt_cases (Z.of_nat (List.length l)) i) as [Hhi|Hhi].
  - right. split; [now right | now apply getitem_list_short].
  - destruct (Z.le_gt_cases 0 i) as [Hlo|Hlo].
    + left. split; [lia|].
      destruct (getitem_list_in_range l i ltac:(lia)) as (a & Ha & Hn).
      exists a. split; [exact Ha | eapply nth_error_In; exact Hn].
    + destruct (Z.le_gt_cases (- Z.of_nat (List.length l)) i) as [Hl|Hl].
      * left. split; [lia|].
        destruct (getitem_list_in_range l (i + Z.of_nat (List.length l))
                    ltac:(lia)) as (a & Ha & Hn).
        rewrite <- getitem_list_negative in Ha by lia.
        replace (i + Z.of_nat (List.length l) - Z.of_nat (List.length l))
          with i in Ha by lia.
        exists a. split; [exact Ha | eapply nth_error_In; exact Hn].
      * right. split; [now left|]. unfold getitem_list.
        destruct (Z.leb_spec 0 i); [lia|]. cbn [andb].
        destruct (Z.leb_spec (- Z.of_nat (List.length l)) i); [lia|].
        reflexivity.
Qed.

Lemma to_int_raise (x : float) (e : exn) :
  Float.to_int x = Raise e -> e = ValueError \/ e = OverflowError.
Proof.
  destruct x; simpl; intros H; try discriminate;
    injection H as <-; tauto.
Qed.

Lemma mul_int_raise (x : float) (n : Z) (e : exn) :
  Float.mul_int x n = Raise e -> e = OverflowError.
Proof.
  unfold Float.mul_int.
  destruct (of_int_cases n) as [E|[[s E]|(s & m & ex & E)]];
    rewrite E; cbn [bind]; congruence.
Qed.

Lemma div_int_2 (x : float) :
  Float.div_int x 2
  = Ok (SFdiv Float.prec Float.emax x
          (S754_finite false 4503599627370496 (-51))).
Proof. reflexivity. Qed.

Lemma pixel_box_raise (cx cy bw bh : float) (W H : Z) (e : exn) :
  CustomDataset.pixel_box cx cy bw bh W H = Raise e ->
  e = ValueError \/ e = OverflowError.
Proof.
  unfold CustomDataset.pixel_box.
  repeat match goal with
         | |- context [bind (Float.mul_int ?x ?n) _] =>
             let E := fresh "E" in
             destruct (Float.mul_int x n) eqn:E; cbn [bind];
             [|apply mul_int_raise in E; intros H0; injection H0 as <-;
               now right]
         end.
  rewrite !div_int_2. cbn [bind].
  repeat match goal with
         | |- bind (Float.to_int ?x) _ = _ -> _ =>
             let E := fresh "E" in
             destruct (Float.to_int x) eqn:E; cbn [bind];
             [|apply to_int_raise in E; intros H0; injection H0 as <-;
               exact E]
         end.
  discriminate.
Qed.

(** The outcome of [__getitem__], step by step. *)
Lemma getitem_cases (w : world) (self : CustomDataset.t) (idx : Z) :
  (getitem_list (CustomDataset.image_filenames self) idx = Raise IndexError
   /\ CustomDataset.__getitem__ w self idx = Raise IndexError)
  \/ exists fname,
      getitem_list (CustomDataset.image_filenames self) idx = Ok fname
      /\ In fname (CustomDataset.image_filenames self)
      /\ (((image_size w (image_path_of self fname) = None
            \/ file_text w (label_path_of self fname) = None)
           /\ CustomDataset.__getitem__ w self idx = Raise OSError)
          \/ (exists size text,
                 image_size w (image_path_of self fname) = Some size
                 /\ file_text w (label_path_of self fname) = Some text
                 /\ ((exists box k,
                         CustomDataset.__getitem__ w self idx
                         = Ok (with_transform (CustomDataset.transform_ self)
                                 (Cropped (image_path_of self fname) box), k))
                     \/ CustomDataset.__getitem__ w self idx
                        = Raise ValueError
                     \/ CustomDataset.__getitem__ w self idx
                        = Raise OverflowError))).
Proof.
  destruct (getitem_list_cases (CustomDataset.image_filenames self) idx)
    as [[_ (fname & Hname & Hin)]|[_ Hraise]].
  - right. exists fname. split; [exact Hname|]. split; [exact Hin|].
    destruct (image_size w (image_path_of self fname)) as [[W H]|] eqn:Es.
    + destruct (file_text w (label_path_of self fname)) as [text|] eqn:Et.
      * right. exists (W, H), text. split; [reflexivity|].
        split; [reflexivity|].
        rewrite (getitem_unfold w self idx fname text W H Hname Es Et).
        destruct (CustomDataset.parse_label _)
          as [[[[[c cx] cy] bw] bh]|e] eqn:El; cbn [bind];
          [|apply parse_label_raise in El; subst; tauto].
        destruct (Float.to_int c) as [k|e] eqn:Ek; cbn [bind];
          [|apply to_int_raise in Ek as [->| ->]; tauto].
        destruct (CustomDataset.pixel_box cx cy bw bh W H) as [box|e] eqn:Eb;
          cbn [bind]; [left; eauto|].
        apply pixel_box_raise in Eb as [->| ->]; tauto.
      * left. split; [now right|]. unfold CustomDataset.__getitem__.
        rewrite Hname. cbn [bind]. unfold image_path_of in Es.
        rewrite Es. cbn [bind of_option]. unfold label_path_of in Et.
        now rewrite Et.
    + left. split; [now left|]. unfold CustomDataset.__getitem__.
      rewrite Hname. cbn [bind]. unfold image_path_of in Es. now rewrite Es.
  - left. split; [exact Hraise|]. unfold CustomDataset.__getitem__.
    now rewrite Hraise.
Qed.

(** X5. [__getitem__] raises [IndexError] exactly for an index below
    [-len] or at least [len]; an index in [[-len, 0)] names the same
    sample as the index [len] higher, as for a Python list. *)
Theorem getitem_index_bounds
    (w : world) (self : CustomDataset.t) (idx : Z) :
  (CustomDataset.__getitem__ w self idx = Raise IndexError
   <-> idx < - CustomDataset.__len__ self \/ CustomDataset.__len__ self <= idx)
  /\ (0 <= idx < CustomDataset.__len__ self ->
      CustomDataset.__getitem__ w self (idx - CustomDataset.__len__ self)
      = CustomDataset.__getitem__ w self idx).
Proof.
  unfold CustomDataset.__len__. split.
  - destruct (getitem_list_cases (CustomDataset.image_filenames self) idx)
      as [[Hin (fname & Hname & _)]|[Hout Hraise]].
    + split; [|lia]. intros H.
      destruct (getitem_cases w self idx)
        as [[Hl _]|(f & Hf & _ & [[_ Hg]|(sz & tx & _ & _ & Hg)])];
        [congruence | congruence |].
      destruct Hg as [(box & k & Hg)|[Hg|Hg]]; congruence.
    + split; [intros _; exact Hout|]. intros _.
      unfold CustomDataset.__getitem__. now rewrite Hraise.
  - intros H. unfold CustomDataset.__getitem__.
    now rewrite getitem_list_negative.
Qed.

Lemma getitem_index_bounds_witness :
  CustomDataset.__getitem__ demo_world demo_train 2 = Raise IndexError
  /\ CustomDataset.__getitem__ demo_world demo_train (-3) = Raise IndexError
  /\ CustomDataset.__getitem__ demo_world demo_train (-2)
     = CustomDataset.__getitem__ demo_world demo_train 0.
Proof.
  split; [|split].
  - apply (proj1 (getitem_index_bounds demo_world demo_train 2)).
    right. vm_compute. discriminate.
  - apply (proj1 (getitem_index_bounds demo_world demo_train (-3))).
    left. reflexivity.
  - apply (proj2 (getitem_index_bounds demo_world demo_train 0)).
    split; [discriminate | reflexivity].
Defined.

(** ** The label file paired with an image file *)

Lemma rfind_from_absent (s : string) (c : ascii) (i : Z) :
  contains c s = false -> Str.rfind_from i s c = -1.
Proof.
  revert i. induction s as [|d s IH]; intros i H; [reflexivity|].
  simpl in H. apply orb_false_iff in H as [Hd Hs].
  cbn [Str.rfind_from]. rewrite (IH (i + 1) Hs). cbn. now rewrite Hd.
Qed.

Lemma rfind_from_last (s t : string) (c : ascii) (i : Z) :
  0 <= i -> contains c t = false ->
  Str.rfind_from i (s ++ String c t) c = i + Z.of_nat (String.length s).
Proof.
  revert i. induction s as [|d s IH]; intros i Hi Ht.
  - cbn [append Str.rfind_from String.length].
    rewrite (rfind_from_absent t c (i + 1) Ht). cbn.
    rewrite Ascii.eqb_refl. lia.
  - cbn [append Str.rfind_from String.length].
    rewrite (IH (i + 1) ltac:(lia) Ht).
    destruct (Z.leb_spec 0 (i + 1 + Z.of_nat (String.length s))); lia.
Qed.

Lemma contains_app (c : ascii) (a b : string) :
  contains c (a ++ b) = contains c a || contains c b.
Proof.
  induction a as [|d a IH]; [reflexivity|].
  simpl. now rewrite IH, orb_assoc.
Qed.

Lemma get_app_length (pre x : string) (c : ascii) :
  String.get (String.length pre) (pre ++ String c x) = Some c.
Proof.
  induction pre as [|d pre IH]; [reflexivity | exact IH].
Qed.

Lemma has_non_dot_scan (pre s rest : string) :
  Path.has_non_dot (pre ++ s ++ rest) (Z.of_nat (String.length pre))
    (String.length s)
  = negb (all_dots s).
Proof.
  revert pre. induction s as [|c s IH]; intros pre; [reflexivity|].
  cbn [Path.has_non_dot String.length all_dots append].
  rewrite Nat2Z.id, get_app_length.
  destruct (Ascii.eqb c ".") eqn:Ec; [|reflexivity]. cbn [andb].
  replace (pre ++ String c (s ++ rest))
    with ((pre ++ String c EmptyString) ++ s ++ rest)
    by (now rewrite append_assoc).
  replace (Z.of_nat (String.length pre) + 1)
    with (Z.of_nat (String.length (pre ++ String c EmptyString)))
    by (rewrite length_append; simpl; lia).
  apply IH.
Qed.

Lemma substring_prefix (a b : string) :
  String.substring 0 (String.length a) (a ++ b) = a.
Proof.
  induction a as [|c a IH]; simpl.
  - now destruct b.
  - now rewrite IH.
Qed.

(** [os.path.splitext] on a file name that ends in a four-character
    extension such as [.jpg]: the extension is split off unless the rest
    of the name is made of dots only. *)
Lemma splitext_image_name (stem ext3 : string) :
  contains "/" stem = false -> contains "/" ext3 = false ->
  contains "." ext3 = false ->
  Path.splitext (stem ++ String "." ext3)
  = if all_dots stem then (stem ++ String "." ext3, EmptyString)
    else (stem, String "." ext3).
Proof.
  intros Hs He Hd. unfold Path.splitext, Str.rfind.
  rewrite (rfind_from_last stem ext3 "." 0 ltac:(lia) Hd).
  rewrite (rfind_from_absent (stem ++ String "." ext3) "/" 0)
    by (rewrite contains_app, Hs; simpl; exact He).
  replace (-1 + 1) with (Z.of_nat (String.length EmptyString)) by reflexivity.
  replace (0 + Z.of_nat (String.length stem)
           - Z.of_nat (String.length EmptyString))
    with (Z.of_nat (String.length stem)) by (simpl; lia).
  rewrite Nat2Z.id.
  pose proof (has_non_dot_scan EmptyString stem (String "." ext3)) as Hscan.
  cbn [append] in Hscan. rewrite Hscan.
  destruct (Z.ltb_spec (-1) (0 + Z.of_nat (String.length stem))); [|lia].
  cbn [andb]. destruct (all_dots stem); cbn [negb]; [reflexivity|].
  unfold Str.slice, Str.len.
  replace (0 + Z.of_nat (String.length stem) - 0)
    with (Z.of_nat (String.length stem)) by lia.
  replace (Z.to_nat 0) with 0%nat by reflexivity.
  rewrite !Nat2Z.id, substring_prefix. f_equal.
  replace (Z.to_nat (Z.of_nat (String.length (stem ++ String "." ext3))
                     - (0 + Z.of_nat (String.length stem))))
    with (String.length (String "." ext3))
    by (rewrite length_append; lia).
  replace (0 + Z.of_nat (String.length stem))
    with (Z.of_nat (String.length stem)) by lia.
  rewrite Nat2Z.id. clear. induction stem as [|c stem IH]; simpl.
  - f_equal. clear. induction ext3 as [|c e IH]; simpl; [reflexivity|].
    now rewrite IH.
  - exact IH.
Qed.

(** X7. For an image file named [stem.jpg] or [stem.png], where [stem]
    holds no slash and is not made of dots only, the label file
    [__getitem__] opens is [stem.txt] in the label directory; for a name
    whose stem is empty or all dots, such as [.jpg], it is the whole name
    followed by [.txt].  No other text file is read: replacing the text
    of any other file leaves the outcome of [__getitem__] as it was. *)
Theorem label_file_pairing
    (self : CustomDataset.t) (stem ext : string) :
  ext = ".jpg" \/ ext = ".png" ->
  contains "/" stem = false ->
  (all_dots stem = false ->
   label_path_of self (stem ++ ext)
   = Path.join (CustomDataset.label_dir self) (stem ++ ".txt"))
  /\ (all_dots stem = true ->
      label_path_of self (stem ++ ext)
      = Path.join (CustomDataset.label_dir self) (stem ++ ext ++ ".txt"))
  /\ (forall w idx p text,
         getitem_list (CustomDataset.image_filenames self) idx
         = Ok (stem ++ ext) ->
         p <> label_path_of self (stem ++ ext) ->
         CustomDataset.__getitem__ (set_file_text w p text) self idx
         = CustomDataset.__getitem__ w self idx).
Proof.
  intros Hext Hstem.
  assert (Hsplit : Path.splitext (stem ++ ext)
                   = if all_dots stem then (stem ++ ext, EmptyString)
                     else (stem, ext)).
  { destruct Hext as [->| ->]; now apply splitext_image_name. }
  split; [|split].
  - intros Hd. unfold label_path_of. now rewrite Hsplit, Hd.
  - intros Hd. unfold label_path_of. rewrite Hsplit, Hd. cbn [fst].
    now rewrite append_assoc.
  - intros w idx p text Hname Hp. unfold CustomDataset.__getitem__.
    rewrite Hname. cbn [bind]. cbn [image_size set_file_text file_text].
    unfold label_path_of in Hp. apply not_eq_sym in Hp.
    apply String.eqb_neq in Hp.
    destruct (image_size w _) as [[W H]|]; cbn [bind of_option];
      [|reflexivity].
    now rewrite Hp.
Qed.

Lemma label_file_pairing_witness :
  label_path_of demo_train ("a" ++ ".jpg") = "/data/train/labels/a.txt"
  /\ label_path_of demo_train (EmptyString ++ ".jpg")
     = "/data/train/labels/.jpg.txt"
  /\ CustomDataset.__getitem__
       (set_file_text demo_world "/data/train/labels/b.txt" "garbage")
       demo_train 0
     = CustomDataset.__getitem__ demo_world demo_train 0.
Proof.
  pose proof (label_file_pairing demo_train "a" ".jpg"
                (or_introl eq_refl) eq_refl) as (H1 & _ & H3).
  pose proof (label_file_pairing demo_train EmptyString ".jpg"
                (or_introl eq_refl) eq_refl) as (_ & H2 & _).
  split; [exact (H1 eq_refl)|]. split; [exact (H2 eq_refl)|].
  apply H3; [reflexivity | vm_compute; discriminate].
Defined.

(** ** A dataset and its items *)

Lemma crop_source_with_transform
    (tr : option transform) (src : string) (box : Z * Z * Z * Z) :
  crop_source (with_transform tr (Cropped src box)) = src.
Proof. now destruct tr. Qed.

(** X8. Every item of a dataset built by [__init__] on a directory is a
    crop of a file of that directory whose name is in the listing taken
    at construction and ends in [.jpg] or [.png], in whatever state the
    file system is when the item is read; and every index from [0] to
    [len - 1] names such a file. *)
Theorem dataset_items_are_listed_images
    (w : world) (image_dir label_dir : string) (tr : option transform)
    (entries : list string) :
  listdir w image_dir = Some entries ->
  exists ds,
    CustomDataset.__init__ w image_dir label_dir tr = Ok ds
    /\ (forall w' idx pic k,
           CustomDataset.__getitem__ w' ds idx = Ok (pic, k) ->
           exists f,
             In f entries
             /\ (has_suffix f ".jpg" \/ has_suffix f ".png")
             /\ crop_source pic = Path.join image_dir f)
    /\ (forall idx,
           0 <= idx < CustomDataset.__len__ ds ->
           exists f,
             getitem_list (CustomDataset.image_filenames ds) idx = Ok f
             /\ In f entries
             /\ (has_suffix f ".jpg" \/ has_suffix f ".png")).
Proof.
  intros Hlist. eexists. split; [apply init_Ok; exact Hlist|].
  set (ds := {| CustomDataset.image_dir := image_dir;
                CustomDataset.label_dir := label_dir;
                CustomDataset.transform_ := tr;
                CustomDataset.image_filenames :=
                  filter CustomDataset.is_image_name entries |}).
  assert (Hfiles : forall f, In f (CustomDataset.image_filenames ds) ->
                             In f entries
                             /\ (has_suffix f ".jpg" \/ has_suffix f ".png")).
  { intros f Hf. apply filter_In in Hf as [Hin Himg].
    now apply is_image_name_spec in Himg. }
  split.
  - intros w' idx pic k Hget.
    destruct (getitem_cases w' ds idx)
      as [[_ Hg]|(f & _ & Hin & [[_ Hg]|(sz & tx & _ & _ & Hg)])];
      [congruence | congruence |].
    destruct Hg as [(box & k' & Hg)|[Hg|Hg]]; [|congruence..].
    rewrite Hg in Hget. injection Hget as <- <-.
    exists f. destruct (Hfiles f Hin) as [H1 H2].
    split; [exact H1|]. split; [exact H2|].
    apply crop_source_with_transform.
  - intros idx Hidx. unfold CustomDataset.__len__ in Hidx.
    destruct (getitem_list_cases (CustomDataset.image_filenames ds) idx)
      as [[_ (f & Hf & Hin)]|[Hout _]]; [|lia].
    exists f. destruct (Hfiles f Hin). tauto.
Qed.

Lemma dataset_items_are_listed_images_witness :
  exists ds,
    CustomDataset.__init__ demo_world "/data/train/images"
      "/data/train/labels" None = Ok ds
    /\ forall w' idx pic k,
        CustomDataset.__getitem__ w' ds idx = Ok (pic, k) ->
        exists f,
          In f demo_images
          /\ (has_suffix f ".jpg" \/ has_suffix f ".png")
          /\ crop_source pic = Path.join "/data/train/images" f.
Proof.
  destruct (dataset_items_are_listed_images demo_world "/data/train/images"
              "/data/train/labels" None demo_images eq_refl)
    as (ds & Hinit & Hitems & _).
  exists ds. split; [exact Hinit | exact Hitems].
Defined.

(** ** How many indices a rank gets *)

Lemma ceil_div_rank (n size rank : Z) :
  0 <= n -> 0 <= rank < size ->
  ceil_div (n - rank) size
  = n / size + (if rank <? n mod size then 1 else 0).
Proof.
  intros Hn Hr.
  pose proof (Z.div_mod n size ltac:(lia)) as Hdiv.
  pose proof (Z.mod_pos_bound n size ltac:(lia)) as Hmod.
  pose proof (proj1 (ceil_div_gt (n - rank) size
                       (ceil_div (n - rank) size - 1) ltac:(lia))
                ltac:(lia)) as Hlow.
  assert (Hhigh : ~ ceil_div (n - rank) size * size < n - rank).
  { intros H. apply ceil_div_gt in H; lia. }
  set (c := ceil_div (n - rank) size) in *.
  set (q := n / size) in *. set (m := n mod size) in *.
  destruct (Z.ltb_spec rank m).
  - assert (q < c) by nia. assert (c - 1 < q + 1) by nia. lia.
  - assert (q - 1 < c) by nia. assert (c - 1 < q) by nia. lia.
Qed.

(** X9. Of a dataset of [n] samples, the rank [rank] of [size] ranks
    gets [n / size] indices and one more when [rank < n mod size], so two
    ranks differ by at most one index; a rank at or beyond [n] gets the
    empty list, and any other rank gets a list that starts with its own
    rank. *)
Theorem arange_rank_length (n size rank : Z) (l : list Z) :
  0 <= n -> 0 <= rank < size ->
  arange rank n size = Ok l ->
  Z.of_nat (List.length l)
  = n / size + (if rank <? n mod size then 1 else 0)
  /\ (n <= rank -> l = [])
  /\ (rank < n -> hd_error l = Some rank).
Proof.
  intros Hn Hr E. rewrite arange_Ok in E by lia. injection E as <-.
  rewrite length_map, length_seq.
  pose proof (ceil_div_rank n size rank Hn Hr) as Hc.
  assert (Hq : 0 <= n / size) by (apply Z.div_pos; lia).
  split; [|split].
  - rewrite Z2Nat.id by lia. rewrite Hc.
    destruct (rank <? n mod size); lia.
  - intros Hge.
    assert (Hsmall : n / size = 0) by (apply Z.div_small; lia).
    assert (Hm : n mod size = n) by (apply Z.mod_small; lia).
    rewrite Hc, Hsmall, Hm.
    destruct (Z.ltb_spec rank n); [lia|]. reflexivity.
  - intros Hlt.
    assert (Hpos : 0 < ceil_div (n - rank) size)
      by (apply ceil_div_gt; lia).
    destruct (Z.to_nat (Z.max 0 (ceil_div (n - rank) size))) as [|k] eqn:Ek;
      [lia|].
    cbn [seq map hd_error]. f_equal. lia.
Qed.

Lemma arange_rank_length_witness :
  Z.of_nat (List.length [1; 5; 9]) = 10 / 4 + (if 1 <? 10 mod 4 then 1 else 0)
  /\ (10 <= 1 -> [1; 5; 9] = [])
  /\ (1 < 10 -> hd_error [1; 5; 9] = Some 1).
Proof.
  apply (arange_rank_length 10 4 1 [1; 5; 9]).
  - discriminate.
  - split; [discriminate | reflexivity].
  - reflexivity.
Defined.

(** ** The batch augmentation of [build_loader] *)

(** X11. The batch augmentation [build_loader] returns is [None] exactly
    when neither [AUG.MIXUP] nor [AUG.CUTMIX] is greater than zero and
    [AUG.CUTMIX_MINMAX] is [None]; otherwise it is a [Mixup] over the
    class count of the training dataset, whatever [MODEL.NUM_CLASSES]
    was on entry, with the alphas, probabilities, mode and label
    smoothing of the configuration. *)
Theorem build_loader_mixup (w : world) (cfg : config) (out : loaders) :
  build_loader w cfg = Ok out ->
  (mixup_fn out = None
   <-> Float.ltb zero (MIXUP (AUG cfg)) = false
       /\ Float.ltb zero (CUTMIX (AUG cfg)) = false
       /\ CUTMIX_MINMAX (AUG cfg) = None)
  /\ (forall m,
         mixup_fn out = Some m ->
         (exists d, build_dataset w true cfg = Ok (d, num_classes m))
         /\ mixup_alpha m = MIXUP (AUG cfg)
         /\ cutmix_alpha m = CUTMIX (AUG cfg)
         /\ cutmix_minmax m = CUTMIX_MINMAX (AUG cfg)
         /\ prob m = MIXUP_PROB (AUG cfg)
         /\ switch_prob m = MIXUP_SWITCH_PROB (AUG cfg)
         /\ mode m = MIXUP_MODE (AUG cfg)
         /\ label_smoothing m = LABEL_SMOOTHING (MODEL cfg)).
Proof.
  unfold build_loader. intros H.
  apply bind_Ok_inv in H as ([dt n] & Ht & H).
  apply bind_Ok_inv in H as ([dv m'] & _ & H).
  apply bind_Ok_inv in H as (st & _ & H).
  apply bind_Ok_inv in H as (iv & _ & H).
  injection H as <-. cbn. unfold zero.
  destruct (Float.ltb (S754_zero false) (MIXUP (AUG cfg)));
    destruct (Float.ltb (S754_zero false) (CUTMIX (AUG cfg)));
    destruct (CUTMIX_MINMAX (AUG cfg)) as [mm|]; cbn;
    (split;
     [split; [try discriminate; tauto
             | intros (H1 & H2 & H3); try discriminate; reflexivity]
     | intros m Hm; try discriminate; injection Hm as <-; cbn;
       repeat split; eauto]).
Qed.

Lemma build_loader_mixup_witness :
  NUM_CLASSES (MODEL (set_MIXUP (demo_config "custom" None) point_eight))
  = 1000
  /\ exists out m,
      build_loader demo_world
        (set_MIXUP (demo_config "custom" None) point_eight) = Ok out
      /\ mixup_fn out = Some m
      /\ num_classes m = 8
      /\ mixup_alpha m = point_eight.
Proof.
  split; [reflexivity|].
  assert (H : exists out,
             build_loader demo_world
               (set_MIXUP (demo_config "custom" None) point_eight) = Ok out
             /\ exists m, mixup_fn out = Some m)
    by (vm_compute; eexists; split; [reflexivity | eexists; reflexivity]).
  destruct H as (out & H & m & Hm). exists out, m.
  split; [exact H|]. split; [exact Hm|].
  destruct (proj2 (build_loader_mixup demo_world _ out H) m Hm)
    as ([d Hd] & Ha & _).
  split; [|exact Ha].
  assert (Hc : exists d', build_dataset demo_world true
                            (set_MIXUP (demo_config "custom" None)
                               point_eight) = Ok (d', 8))
    by (vm_compute; eexists; reflexivity).
  destruct Hc as [d' Hd']. rewrite Hd in Hd'. now injection Hd'.
Defined.

(** ** The resize of the evaluation transform *)

Lemma crop_resize_exact_below_spec (n t : Z) :
  crop_resize_exact_below n = true -> 0 <= t < n ->
  crop_resize t = Ok (t * 8 / 7).
Proof.
  unfold crop_resize_exact_below. intros H Ht.
  rewrite forallb_forall in H. specialize (H (Z.to_nat t)).
  rewrite Z2Nat.id in H by lia.
  assert (Hin : In (Z.to_nat t) (seq 0 (Z.to_nat n)))
    by (apply in_seq; lia).
  specialize (H Hin).
  destruct (crop_resize t) as [s|]; [|discriminate].
  apply Z.eqb_eq in H. now subst.
Qed.

Lemma crop_resize_exact_4097 : crop_resize_exact_below 4097 = true.
Proof. vm_compute. reflexivity. Qed.

Lemma crop_resize_exact (t : Z) :
  0 <= t <= 4096 -> crop_resize t = Ok (t * 8 / 7).
Proof.
  intros Ht.
  apply (crop_resize_exact_below_spec 4097 t crop_resize_exact_4097). lia.
Qed.

(** X13. With [DATA.IMG_SIZE > 32], [TEST.CROP] set and a test size from
    0 to 4096, the evaluation transform resizes to
    [floor(8 * TEST_SIZE / 7)], the value exact arithmetic gives for
    [256 / 224 * TEST_SIZE], and then center-crops to [TEST_SIZE]; the
    resize is never smaller than the crop. *)
Theorem eval_transform_crop_resize (cfg : config) :
  32 < IMG_SIZE (DATA cfg) -> CROP (TEST cfg) = true ->
  0 <= TEST_SIZE (DATA cfg) <= 4096 ->
  build_transform false cfg
  = Ok (Compose [Resize (TEST_SIZE (DATA cfg) * 8 / 7)
                        (Some (INTERPOLATION (DATA cfg)));
                 CenterCrop (TEST_SIZE (DATA cfg));
                 ToTensor; imagenet_normalize])
  /\ TEST_SIZE (DATA cfg) <= TEST_SIZE (DATA cfg) * 8 / 7.
Proof.
  intros Himg Hcrop Hsize. split.
  - unfold build_transform. apply Z.ltb_lt in Himg. rewrite Himg, Hcrop.
    pose proof (crop_resize_exact (TEST_SIZE (DATA cfg)) Hsize) as H.
    unfold crop_resize in H.
    destruct (Float.int_truediv 256 224) as [ratio|]; cbn [bind] in *;
      [|discriminate].
    destruct (Float.mul_int ratio (TEST_SIZE (DATA cfg))) as [scaled|];
      cbn [bind] in *; [|discriminate].
    rewrite H. reflexivity.
  - apply Z.div_le_lower_bound; lia.
Qed.

Lemma eval_transform_crop_resize_witness :
  build_transform false (demo_config "imagenet" None)
  = Ok (Compose [Resize 256 (Some "bilinear"); CenterCrop 224; ToTensor;
                 imagenet_normalize]).
Proof.
  apply (eval_transform_crop_resize (demo_config "imagenet" None));
    [reflexivity | reflexivity | simpl; lia].
Defined.

(** ** Items of the custom dataset of [build_dataset] *)

Lemma custom_split_Ok_inv
    (w : world) (data_path split : string) (tr : transform) (ds : dataset) :
  custom_split w data_path split tr = Ok ds ->
  exists d, ds = Custom d /\ CustomDataset.transform_ d = Some tr.
Proof.
  unfold custom_split. intros H.
  apply bind_Ok_inv in H as (entries & _ & H).
  apply bind_Ok_inv in H as (idir & _ & H).
  apply bind_Ok_inv in H as (ldir & _ & H).
  apply bind_Ok_inv in H as (d & Hd & H).
  injection H as <-. exists d. split; [reflexivity|].
  unfold CustomDataset.__init__ in Hd.
  apply bind_Ok_inv in Hd as (files & _ & Hd). now injection Hd as <-.
Qed.

(** X14. Whatever [build_dataset] returns for ['custom'] is a
    [CustomDataset] with the fixed pipeline resize 96, center crop 96,
    to tensor, normalize, whatever the image sizes and augmentation of the
    configuration and for training as for validation; every item it hands
    out is a crop passed through that pipeline. *)
Theorem custom_dataset_items_transformed
    (w : world) (is_train : bool) (cfg : config) (ds : dataset) (n : Z) :
  DATASET (DATA cfg) = "custom" ->
  build_dataset w is_train cfg = Ok (ds, n) ->
  exists d,
    ds = Custom d
    /\ CustomDataset.transform_ d = Some custom_transform
    /\ forall w' idx pic k,
        CustomDataset.__getitem__ w' d idx = Ok (pic, k) ->
        exists src box,
          pic = Transformed custom_transform (Cropped src box).
Proof.
  intros Hname H. rewrite (build_dataset_custom w is_train cfg Hname) in H.
  apply bind_Ok_inv in H as (ds' & Hsplit & H). injection H as <- <-.
  apply custom_split_Ok_inv in Hsplit as (d & -> & Htr).
  exists d. split; [reflexivity|]. split; [exact Htr|].
  intros w' idx pic k Hget.
  destruct (getitem_cases w' d idx)
    as [[_ Hg]|(f & _ & _ & [[_ Hg]|(sz & tx & _ & _ & Hg)])];
    [congruence | congruence |].
  destruct Hg as [(box & k' & Hg)|[Hg|Hg]]; [|congruence..].
  rewrite Hg in Hget. injection Hget as <- <-.
  rewrite Htr. cbn [with_transform]. eauto.
Qed.

Lemma custom_dataset_items_transformed_witness :
  exists d,
    build_dataset demo_world true (demo_config "custom" None)
    = Ok (Custom d, 8)
    /\ CustomDataset.__getitem__ demo_world d 0
       = Ok (Transformed custom_transform
               (Cropped "/data/train/images/a.jpg" (25, 25, 75, 75)), 3).
Proof.
  assert (H : exists ds, build_dataset demo_world true
                           (demo_config "custom" None) = Ok (ds, 8))
    by (vm_compute; eexists; reflexivity).
  destruct H as [ds H].
  destruct (custom_dataset_items_transformed demo_world true
              (demo_config "custom" None) ds 8 eq_refl H)
    as (d & -> & _ & _).
  exists d. split; [exact H|].
  vm_compute in H. injection H as <-. vm_compute. reflexivity.
Defined.

(** * The label file as bytes *)

(** ** What [readline] returns *)

Lemma chunk_size_pos : 0 < Disk.CHUNK_SIZE.
Proof. reflexivity. Qed.

Lemma width_pos (u : Disk.piece) : 1 <= Disk.width u <= 2.
Proof.
  destruct u as [c|]; simpl; [|lia].
  destruct (nat_of_ascii c <? 128)%nat; lia.
Qed.

Lemma bytes_nonneg (pieces : list Disk.piece) : 0 <= bytes pieces.
Proof.
  induction pieces as [|u rest IH]; simpl; [lia|].
  pose proof (width_pos u). lia.
Qed.

Lemma bytes_app (a b : list Disk.piece) :
  bytes (a ++ b) = bytes a + bytes b.
Proof.
  induction a as [|u a IH]; simpl; [reflexivity | rewrite IH; lia].
Qed.

Lemma scan_found_Ok (pieces : list Disk.piece) (pos k : Z) (l : string) :
  Disk.scan pos (Disk.Found k) pieces = Ok l -> l = EmptyString.
Proof.
  revert pos. induction pieces as [|u rest IH]; intros pos; simpl.
  - congruence.
  - destruct u as [c|];
      destruct ((pos + _ - 1) / Disk.CHUNK_SIZE <=? k);
      try congruence. apply IH.
Qed.

Lemma scan_after_cr_Ok (pieces : list Disk.piece) (pos : Z) (l : string) :
  Disk.scan pos Disk.AfterCR pieces = Ok l -> l = LF.
Proof.
  destruct pieces as [|[c|] rest]; simpl; [|intros H|discriminate].
  - intros H. injection H as <-. reflexivity.
  - apply bind_Ok_inv in H as (l' & Hl' & H).
    apply scan_found_Ok in Hl'. subst. injection H as <-. reflexivity.
Qed.

(** When [readline] returns, it returns the first line of the text the
    file decodes to, with or without a line feed behind it. *)
Lemma scan_searching_Ok (pieces : list Disk.piece) (pos : Z) (l : string) :
  Disk.scan pos Disk.Searching pieces = Ok l ->
  l = first_line (decoded pieces) \/ l = first_line (decoded pieces) ++ LF.
Proof.
  revert pos l. induction pieces as [|u rest IH]; intros pos l; simpl.
  - intros H. injection H as <-. now left.
  - destruct u as [c|]; [|discriminate]. cbn [decoded first_line].
    destruct (Ascii.eqb c "010") eqn:Elf; cbn [orb].
    + intros H. apply bind_Ok_inv in H as (l' & Hl' & H).
      apply scan_found_Ok in Hl'. subst. injection H as <-. now right.
    + destruct (Ascii.eqb c "013") eqn:Ecr.
      * intros H. apply scan_after_cr_Ok in H. subst. now right.
      * intros H. apply bind_Ok_inv in H as (l' & Hl' & H).
        injection H as <-.
        destruct (IH _ _ Hl') as [->| ->]; [now left | now right].
Qed.

Lemma readline_strip (pieces : list Disk.piece) (l : string) :
  Disk.readline pieces = Ok l ->
  Str.strip l = Str.strip (first_line (decoded pieces)).
Proof.
  intros H. apply scan_searching_Ok in H as [->| ->];
    [reflexivity | apply strip_app_LF].
Qed.

Lemma scan_decodable (pieces : list Disk.piece) (pos : Z) (st : Disk.state) :
  decodable pieces = true -> exists l, Disk.scan pos st pieces = Ok l.
Proof.
  revert pos st. induction pieces as [|u rest IH]; intros pos st Hd.
  - destruct st; simpl; eauto.
  - destruct u as [c|]; [|discriminate]. simpl in Hd.
    destruct st as [| |k]; cbn [Disk.scan].
    + destruct (Ascii.eqb c "010");
        [destruct (IH (pos + Disk.width (Disk.Char c)) (Disk.Found
                     ((pos + Disk.width (Disk.Char c) - 1)
                      / Disk.CHUNK_SIZE)) Hd) as [l ->];
         cbn [bind]; eauto|].
      destruct (Ascii.eqb c "013"); [apply IH, Hd|].
      destruct (IH (pos + Disk.width (Disk.Char c)) Disk.Searching Hd)
        as [l ->]. cbn [bind]. eauto.
    + destruct (IH (pos + Disk.width (Disk.Char c)) (Disk.Found
                  ((pos + Disk.width (Disk.Char c) - 1)
                   / Disk.CHUNK_SIZE)) Hd) as [l ->].
      cbn [bind]. eauto.
    + destruct (_ <=? k); [apply IH, Hd | eauto].
Qed.

(** ** Which bytes [readline] decodes *)

Lemma scan_line (a : string) (pos : Z) (rest : list Disk.piece) :
  one_line a = true ->
  Disk.scan pos Disk.Searching (encode a ++ rest)
  = (l <- Disk.scan (pos + bytes (encode a)) Disk.Searching rest ;;
     Ok (a ++ l)).
Proof.
  revert pos. induction a as [|c a IH]; intros pos Ha.
  - cbn [encode bytes app append]. rewrite Z.add_0_r.
    now destruct (Disk.scan pos Disk.Searching rest).
  - simpl in Ha. apply andb_true_iff in Ha as [Hc Ha].
    apply negb_true_iff, orb_false_iff in Hc as [Hlf Hcr].
    cbn [encode bytes app Disk.scan]. rewrite Hlf, Hcr.
    rewrite (IH _ Ha). rewrite Z.add_assoc.
    destruct (Disk.scan _ Disk.Searching rest); reflexivity.
Qed.

Lemma scan_found_beyond (tail : list Disk.piece) (pos k : Z) :
  Disk.CHUNK_SIZE * (k + 1) <= pos ->
  Disk.scan pos (Disk.Found k) tail = Ok EmptyString.
Proof.
  intros H. destruct tail as [|u tail]; [reflexivity|].
  cbn [Disk.scan]. pose proof (width_pos u) as Hw.
  assert (Hk : k + 1 <= (pos + Disk.width u - 1) / Disk.CHUNK_SIZE)
    by (apply Z.div_le_lower_bound; [apply chunk_size_pos | lia]).
  destruct (Z.leb_spec ((pos + Disk.width u - 1) / Disk.CHUNK_SIZE) k);
    [lia|]. now destruct u.
Qed.

(** Behind the line end, what decodes and reaches the end of the chunk
    hides all that follows. *)
Lemma scan_found_rest_of_chunk (b tail : list Disk.piece) (pos k : Z) :
  decodable b = true ->
  Disk.CHUNK_SIZE * (k + 1) <= pos + bytes b ->
  Disk.scan pos (Disk.Found k) (b ++ tail) = Ok EmptyString.
Proof.
  revert pos. induction b as [|u b IH]; intros pos Hd Hb.
  - cbn [bytes] in Hb. rewrite Z.add_0_r in Hb.
    now apply scan_found_beyond.
  - destruct u as [c|]; [|discriminate]. simpl in Hd.
    cbn [app Disk.scan].
    destruct (_ <=? k); [|reflexivity].
    apply IH; [exact Hd|]. cbn [bytes] in Hb. lia.
Qed.

(** Behind the line end, a byte of the same chunk that does not decode
    makes the read fail. *)
Lemma scan_found_invalid_in_chunk (b tail : list Disk.piece) (pos k : Z) :
  decodable b = true ->
  pos + bytes b < Disk.CHUNK_SIZE * (k + 1) ->
  Disk.scan pos (Disk.Found k) (b ++ Disk.Invalid :: tail)
  = Raise ValueError.
Proof.
  revert pos. induction b as [|u b IH]; intros pos Hd Hb.
  - cbn [bytes] in Hb. rewrite Z.add_0_r in Hb.
    cbn [app Disk.scan Disk.width].
    assert (Hk : (pos + 1 - 1) / Disk.CHUNK_SIZE < k + 1)
      by (apply Z.div_lt_upper_bound; [apply chunk_size_pos | lia]).
    destruct (Z.leb_spec ((pos + 1 - 1) / Disk.CHUNK_SIZE) k);
      [reflexivity | lia].
  - destruct u as [c|]; [|discriminate]. simpl in Hd.
    cbn [app Disk.scan]. cbn [bytes] in Hb.
    pose proof (bytes_nonneg b) as Hnn.
    assert (Hk : (pos + Disk.width (Disk.Char c) - 1) / Disk.CHUNK_SIZE
                 < k + 1)
      by (apply Z.div_lt_upper_bound; [apply chunk_size_pos | lia]).
    destruct (Z.leb_spec
                ((pos + Disk.width (Disk.Char c) - 1) / Disk.CHUNK_SIZE) k);
      [|lia].
    apply IH; [exact Hd | lia].
Qed.

Lemma readline_line_feed (a : string) (rest : list Disk.piece) :
  one_line a = true ->
  Disk.readline (encode a ++ Disk.Char "010" :: rest)
  = (l <- Disk.scan (bytes (encode a) + 1)
            (Disk.Found (bytes (encode a) / Disk.CHUNK_SIZE)) rest ;;
     Ok (a ++ String "010" l)).
Proof.
  intros Ha. unfold Disk.readline. rewrite (scan_line a 0 _ Ha).
  cbn [Disk.scan Disk.width]. rewrite Ascii.eqb_refl.
  replace (nat_of_ascii "010" <? 128)%nat with true by reflexivity.
  replace (0 + bytes (encode a) + 1 - 1) with (bytes (encode a)) by lia.
  replace (0 + bytes (encode a) + 1) with (bytes (encode a) + 1) by lia.
  destruct (Disk.scan _ _ rest); reflexivity.
Qed.

(** ** [__getitem__] on the text model and on bytes *)

(** The text-level [__getitem__] is the byte-level one on every world
    whose label files are read without a decoding error and hold the
    text the bytes decode to. *)
Lemma getitem_on_decoded_text
    (w : world) (files : string -> option (list Disk.piece))
    (self : CustomDataset.t) (idx : Z) :
  (forall p,
      match files p with
      | Some u => (exists l, Disk.readline u = Ok l)
                  /\ file_text w p = Some (decoded u)
      | None => file_text w p = None
      end) ->
  Disk.__getitem__ w files self idx = CustomDataset.__getitem__ w self idx.
Proof.
  intros Hfiles. unfold Disk.__getitem__, CustomDataset.__getitem__.
  destruct (getitem_list (CustomDataset.image_filenames self) idx)
    as [fname|]; cbn [bind]; [|reflexivity].
  destruct (image_size w _) as [[W H]|]; cbn [bind of_option]; [|reflexivity].
  specialize (Hfiles (Path.join (CustomDataset.label_dir self)
                        (fst (Path.splitext fname) ++ ".txt"))).
  destruct (files _) as [u|].
  - destruct Hfiles as [[l Hl] ->]. cbn [bind of_option]. rewrite Hl.
    cbn [bind]. now rewrite (readline_strip u l Hl), strip_readline.
  - rewrite Hfiles. reflexivity.
Qed.

Lemma getitem_same_first_read
    (w1 w2 : world) (f1 f2 : string -> option (list Disk.piece))
    (self : CustomDataset.t) (idx : Z) :
  (forall p, image_size w1 p = image_size w2 p) ->
  (forall p, same_first_read (f1 p) (f2 p)) ->
  Disk.__getitem__ w1 f1 self idx = Disk.__getitem__ w2 f2 self idx.
Proof.
  intros Hsize Hfiles. unfold Disk.__getitem__.
  destruct (getitem_list (CustomDataset.image_filenames self) idx)
    as [fname|]; cbn [bind]; [|reflexivity].
  rewrite Hsize.
  destruct (image_size w2 _) as [[W H]|]; cbn [bind of_option]; [|reflexivity].
  specialize (Hfiles (Path.join (CustomDataset.label_dir self)
                        (fst (Path.splitext fname) ++ ".txt"))).
  destruct (f1 _) as [u1|], (f2 _) as [u2|]; simpl in Hfiles;
    try contradiction; cbn [bind of_option]; [|reflexivity].
  destruct Hfiles as ([l1 H1] & [l2 H2] & Hline).
  rewrite H1, H2. cbn [bind].
  now rewrite (readline_strip u1 l1 H1), (readline_strip u2 l2 H2), Hline.
Qed.

(** C10, as the code has it.  [__getitem__] uses the first line of the
    paired label file only: two states of the world that agree on the
    images and in which the first line of every label file is read
    without a decoding error and is the same give the same outcome for
    every index, whatever the files hold further on.  Reading the first
    line decodes the file in chunks of 8192 bytes, up to the end of the
    chunk the line end lies in: when the file decodes up to there, the
    line is returned whatever follows, also bytes that do not decode;
    a byte that does not decode in the chunk of the line end, though
    behind the first line, makes the read raise [UnicodeDecodeError]
    (a [ValueError]), as does one in the first line itself; a file that
    decodes throughout is always read. *)
Theorem getitem_reads_first_line_of_decoded_chunks :
  (forall w1 w2 f1 f2 self idx,
      (forall p, image_size w1 p = image_size w2 p) ->
      (forall p, same_first_read (f1 p) (f2 p)) ->
      Disk.__getitem__ w1 f1 self idx = Disk.__getitem__ w2 f2 self idx)
  /\ (forall a b tail,
         one_line a = true -> decodable b = true ->
         Disk.CHUNK_SIZE * (bytes (encode a) / Disk.CHUNK_SIZE + 1)
         <= bytes (encode a) + 1 + bytes b ->
         Disk.readline (encode a ++ Disk.Char "010" :: b ++ tail)
         = Ok (a ++ LF))
  /\ (forall a b tail,
         one_line a = true -> decodable b = true ->
         bytes (encode a) + 1 + bytes b
         < Disk.CHUNK_SIZE * (bytes (encode a) / Disk.CHUNK_SIZE + 1) ->
         Disk.readline
           (encode a ++ Disk.Char "010" :: b ++ Disk.Invalid :: tail)
         = Raise ValueError)
  /\ (forall a tail,
         one_line a = true ->
         Disk.readline (encode a ++ Disk.Invalid :: tail) = Raise ValueError)
  /\ (forall pieces,
         decodable pieces = true ->
         exists l, Disk.readline pieces = Ok l
                   /\ Str.strip l = Str.strip (first_line (decoded pieces))).
Proof.
  split; [exact getitem_same_first_read|]. split; [|split; [|split]].
  - intros a b tail Ha Hb Hlen. rewrite (readline_line_feed a _ Ha).
    rewrite scan_found_rest_of_chunk; [reflexivity | exact Hb | lia].
  - intros a b tail Ha Hb Hlen. rewrite (readline_line_feed a _ Ha).
    rewrite scan_found_invalid_in_chunk; [reflexivity | exact Hb | lia].
  - intros a tail Ha. unfold Disk.readline.
    rewrite (scan_line a 0 _ Ha). reflexivity.
  - intros pieces Hd.
    destruct (scan_decodable pieces 0 Disk.Searching Hd) as [l Hl].
    exists l. split; [exact Hl | now apply readline_strip].
Qed.

Lemma getitem_reads_first_line_of_decoded_chunks_witness :
  Disk.readline (encode "3 0.5 0.5 0.5 0.5" ++ Disk.Char "010"
                 :: encode "7 0.1" ++ Disk.Invalid :: encode "0.1 0.1")
  = Raise ValueError
  /\ Disk.readline (encode "3 0.5 0.5 0.5 0.5" ++ Disk.Char "010"
                    :: filler 8174 (Disk.Char "a")
                    ++ [Disk.Invalid; Disk.Invalid])
     = Ok ("3 0.5 0.5 0.5 0.5" ++ LF)
  /\ Disk.__getitem__ demo_world demo_files demo_valid 0
     = Disk.__getitem__ demo_world
         (fun p => option_map (fun u => firstn 19 u) (demo_files p))
         demo_valid 0.
Proof.
  destruct getitem_reads_first_line_of_decoded_chunks
    as (Hsame & Hgood & Hbad & _ & _).
  split; [|split].
  - apply (Hbad "3 0.5 0.5 0.5 0.5" (encode "7 0.1") (encode "0.1 0.1"));
      [reflexivity | reflexivity | vm_compute; reflexivity].
  - apply (Hgood "3 0.5 0.5 0.5 0.5" (filler 8174 (Disk.Char "a"))
             [Disk.Invalid; Disk.Invalid]);
      [reflexivity | vm_compute; reflexivity | vm_compute; discriminate].
  - apply Hsame; [reflexivity|]. intros p. unfold demo_files.
    destruct (lookup demo_labels p) as [t|] eqn:E; [|exact I].
    cbn [option_map same_first_read].
    unfold demo_labels in E. cbn [lookup] in E.
    destruct (String.eqb p "/data/train/labels/a.txt");
      [injection E as <-; vm_compute;
       repeat split; eexists; reflexivity|].
    destruct (String.eqb p "/data/valid/labels/v.txt");
      [injection E as <-; vm_compute;
       repeat split; eexists; reflexivity | discriminate].
Defined.

(** C10, as stated, fails: the two label files below have the same first
    line, and [__getitem__] returns the crop and the class id for the one
    and raises for the other, whose bytes behind the first line do not
    decode. *)
Lemma getitem_undecodable_tail_raises :
  (forall p, same_first_line (demo_files p) (garbled_files p))
  /\ Disk.__getitem__ demo_world demo_files demo_train 0
     = Ok (Cropped "/data/train/images/a.jpg" (25, 25, 75, 75), 3)
  /\ Disk.__getitem__ demo_world garbled_files demo_train 0
     = Raise ValueError
  /\ ~ (forall w f1 f2 self idx,
           (forall p, same_first_line (f1 p) (f2 p)) ->
           Disk.__getitem__ w f1 self idx = Disk.__getitem__ w f2 self idx).
Proof.
  assert (Hagree : forall p, same_first_line (demo_files p) (garbled_files p)).
  { intros p. unfold garbled_files.
    destruct (String.eqb_spec p "/data/train/labels/a.txt") as [->|N].
    - vm_compute. reflexivity.
    - destruct (demo_files p); simpl; trivial. }
  assert (E1 : Disk.__getitem__ demo_world demo_files demo_train 0
               = Ok (Cropped "/data/train/images/a.jpg" (25, 25, 75, 75), 3))
    by (vm_compute; reflexivity).
  assert (E2 : Disk.__getitem__ demo_world garbled_files demo_train 0
               = Raise ValueError)
    by (vm_compute; reflexivity).
  split; [exact Hagree|]. split; [exact E1|]. split; [exact E2|].
  intros H.
  specialize (H demo_world demo_files garbled_files demo_train 0 Hagree).
  rewrite E1, E2 in H. discriminate.
Qed.

(** ** The fields of a label line *)

Lemma six_fields_not_five :
  ~ five_whitespace_separated "3 0.5 0.5 0.5 0.5 0.9".
Proof.
  intros H. apply parse_label_five in H as [r H].
  vm_compute in H. discriminate.
Qed.

(** X12. The label statement of [__getitem__] succeeds exactly when the
    first line of the label file is read without a decoding error and is
    five numeric fields separated by runs of whitespace (so a sixth field
    makes it fail, as does a missing one), and it then yields the values
    of the five fields in their order: class id, [cx], [cy], [bw],
    [bh]. *)
Theorem label_statement_on_disk_accepts_iff (pieces : list Disk.piece) :
  ((exists r,
       (text <- Disk.readline pieces ;;
        CustomDataset.parse_label (Str.strip text)) = Ok r)
   <-> (exists l, Disk.readline pieces = Ok l)
       /\ five_whitespace_separated (first_line (decoded pieces)))
  /\ (forall f0 f1 f2 f3 f4 s0 s1 s2 s3 s4 s5 r,
         first_line (decoded pieces)
         = s0 ++ f0 ++ s1 ++ f1 ++ s2 ++ f2 ++ s3 ++ f3 ++ s4 ++ f4 ++ s5 ->
         blank s0 = true -> blank s5 = true ->
         is_separator s1 -> is_separator s2 ->
         is_separator s3 -> is_separator s4 ->
         is_field f0 -> is_field f1 -> is_field f2 ->
         is_field f3 -> is_field f4 ->
         (text <- Disk.readline pieces ;;
          CustomDataset.parse_label (Str.strip text)) = Ok r ->
         Float.of_string f0 = Ok (fst (fst (fst (fst r))))
         /\ Float.of_string f1 = Ok (snd (fst (fst (fst r))))
         /\ Float.of_string f2 = Ok (snd (fst (fst r)))
         /\ Float.of_string f3 = Ok (snd (fst r))
         /\ Float.of_string f4 = Ok (snd r)).
Proof.
  split.
  - split.
    + intros [r H]. apply bind_Ok_inv in H as (l & Hl & H).
      split; [eauto|]. apply parse_label_five.
      rewrite <- (readline_strip pieces l Hl). eauto.
    + intros [[l Hl] H]. rewrite Hl. cbn [bind].
      rewrite (readline_strip pieces l Hl). now apply parse_label_five.
  - intros f0 f1 f2 f3 f4 s0 s1 s2 s3 s4 s5 r E Hb0 Hb5 Hs1 Hs2 Hs3 Hs4
           Hf0 Hf1 Hf2 Hf3 Hf4 H.
    apply bind_Ok_inv in H as (l & Hl & H).
    rewrite (readline_strip pieces l Hl) in H. revert H.
    assert (Hsplit : Str.split (Str.strip (first_line (decoded pieces)))
                     = [f0; f1; f2; f3; f4]).
    { rewrite split_strip. apply tokens_split, tokens_five.
      exists s0, s1, s2, s3, s4, s5. repeat (split; [assumption|]).
      assumption. }
    unfold CustomDataset.parse_label. rewrite Hsplit.
    destruct (Float.of_string f0); cbn [bind]; [|discriminate].
    destruct (Float.of_string f1); cbn [bind]; [|discriminate].
    destruct (Float.of_string f2); cbn [bind]; [|discriminate].
    destruct (Float.of_string f3); cbn [bind]; [|discriminate].
    destruct (Float.of_string f4); cbn [bind]; [|discriminate].
    intros H. injection H as <-. repeat split.
Qed.

Lemma label_statement_on_disk_accepts_iff_witness :
  ~ exists r,
      (text <- Disk.readline (encode ("3 0.5 0.5 0.5 0.5 0.9" ++ LF)) ;;
       CustomDataset.parse_label (Str.strip text)) = Ok r.
Proof.
  intros H.
  apply (proj1 (proj1 (label_statement_on_disk_accepts_iff
                         (encode ("3 0.5 0.5 0.5 0.5 0.9" ++ LF))))) in H.
  exact (six_fields_not_five (proj2 H)).
Defined.
